(** * A chat agent and its three file tools: read_file, list_files, edit_file

    A shallow embedding of [read_file_tool.py], [list_files_tool.py],
    [edit_file_tool.py] and of the agent loop of [main.py].

    Conventions of the embedding.
    - A Python [str] is a [string]; its characters are code points below 256.
    - A tool input is a [pyobj]; a [dict] is a finite map from field names to
      strings, which is what the three [input_schema]s declare.
    - The working directory is a tree of [node]s.  The tools run with the
      root of that tree as current directory and as file system root, and may
      access every node of it; files hold text.
    - The tools are written in a state and exception monad [M] over that
      tree: a Python [raise] is [Raised], [try ... except] is [try_except].
    - [json.loads] and [bytes.decode] are library code: the development is
      parametric in them (section variables [json_loads], [bytes_decode]).
    - The model is reached through a client: a function from the request
      of [client.messages.create] to the blocks of the reply, or to the
      exception of a failed call. *)

From Stdlib Require Import String Ascii List Bool Arith Lia ZArith.
From Stdlib Require Import Sorting.Sorted Permutation DecimalString.
From stdpp Require Import base option gmap strings list sorting.

Set Warnings "-register-all".

(** ** Strings *)

(** The double quote character, written by its code. *)
Definition dquote : ascii := ascii_of_nat 34.
Definition slash : ascii := ascii_of_nat 47.

(** [old in s]: [old] occurs in [s] as a substring. *)
Definition occurs (old s : string) : Prop :=
  exists a b, s = a +:+ old +:+ b.

Fixpoint occursb (old s : string) : bool :=
  String.prefix old s ||
  match s with
  | EmptyString => false
  | String _ rest => occursb old rest
  end.

(** [s[n:]] *)
Fixpoint str_drop (n : nat) (s : string) : string :=
  match n, s with
  | O, _ => s
  | S k, String _ rest => str_drop k rest
  | S _, EmptyString => EmptyString
  end.

(** [str.replace(old, new)] for a non-empty [old]: scan from the left; at
    an occurrence of [old] emit [new] and skip the rest of the occurrence
    ([skip] counts the characters still to skip). *)
Fixpoint replace_go (old new : string) (skip : nat) (s : string) : string :=
  match s with
  | EmptyString => EmptyString
  | String c rest =>
      match skip with
      | S k => replace_go old new k rest
      | O =>
          if String.prefix old s
          then new +:+ replace_go old new (String.length old - 1) rest
          else String c (replace_go old new 0 rest)
      end
  end.

(** [str.replace] with an empty [old]: [new] goes before every character
    and at the end. *)
Fixpoint intersperse (new s : string) : string :=
  match s with
  | EmptyString => new
  | String c rest => new +:+ String c (intersperse new rest)
  end.

(** [s.replace(old, new)] *)
Definition str_replace (old new s : string) : string :=
  match old with
  | EmptyString => intersperse new s
  | String _ _ => replace_go old new 0 s
  end.

(** [sep.join(pieces)] *)
Definition str_join (sep : string) (pieces : list string) : string :=
  String.concat sep pieces.

(** The spec of a global literal replacement: cut the text at the leftmost
    occurrence of [old], put [new] there, go on after the occurrence. *)
Definition leftmost (old a b : string) : Prop :=
  forall a' b', a +:+ old +:+ b = a' +:+ old +:+ b' ->
    String.length a <= String.length a'.

Inductive replaced (old new : string) : string -> string -> Prop :=
| replaced_none s :
    ~ occurs old s -> replaced old new s s
| replaced_first a b r :
    leftmost old a b -> replaced old new b r ->
    replaced old new (a +:+ old +:+ b) (a +:+ new +:+ r).

(** ** Paths: [posixpath] *)

Definition is_slash (c : ascii) : bool := Ascii.eqb c slash.

(** [p.split('/')]: the components of a path, empty ones included. *)
Fixpoint split_slash (p : string) : list string :=
  match p with
  | EmptyString => [EmptyString]
  | String c rest =>
      if is_slash c then EmptyString :: split_slash rest
      else match split_slash rest with
           | [] => [String c EmptyString]
           | w :: ws => String c w :: ws
           end
  end.

Fixpoint has_slash (p : string) : bool :=
  match p with
  | EmptyString => false
  | String c rest => is_slash c || has_slash rest
  end.

(** [p[:p.rfind('/') + 1]] *)
Fixpoint upto_last_slash (p : string) : string :=
  match p with
  | EmptyString => EmptyString
  | String c rest =>
      if has_slash p then String c (upto_last_slash rest) else EmptyString
  end.

(** [p.rstrip('/')] *)
Fixpoint rstrip_slash (p : string) : string :=
  match p with
  | EmptyString => EmptyString
  | String c rest =>
      match rstrip_slash rest with
      | EmptyString => if is_slash c then EmptyString else String c EmptyString
      | r => String c r
      end
  end.

(** [os.path.dirname(p)]: the head up to the last slash, without its
    trailing slashes unless it consists of slashes only. *)
Definition os_path_dirname (p : string) : string :=
  let head := upto_last_slash p in
  match rstrip_slash head with
  | EmptyString => head
  | stripped => stripped
  end.

Fixpoint ends_with_slash (p : string) : bool :=
  match p with
  | EmptyString => false
  | String c EmptyString => is_slash c
  | String _ rest => ends_with_slash rest
  end.

Definition starts_with_slash (p : string) : bool :=
  match p with
  | String c _ => is_slash c
  | EmptyString => false
  end.

(** [os.path.join(a, b)] *)
Definition os_path_join (a b : string) : string :=
  if starts_with_slash b then b
  else if String.eqb a "" || ends_with_slash a then a +:+ b
  else a +:+ "/" +:+ b.

(** ** Python values and exceptions *)

(** The values a tool may be handed, and what [json.loads] may return.
    [PyOther t] is a value of any other type named [t] ([int], [float],
    [bool], [NoneType], ...). *)
Inductive pyobj : Type :=
| PyStr (s : string)
| PyDict (d : gmap string string)
| PyBytes (b : list Byte.byte)
| PyList (items : list pyobj)
| PyOther (type_name : string).

Definition type_name (v : pyobj) : string :=
  match v with
  | PyStr _ => "str"
  | PyDict _ => "dict"
  | PyBytes _ => "bytes"
  | PyList _ => "list"
  | PyOther t => t
  end.

(** [f"{type(v)}"] *)
Definition type_repr (v : pyobj) : string :=
  "<class '" +:+ type_name v +:+ "'>".

(** The error numbers of the [OSError]s the file system raises:
    [FileNotFoundError], [FileExistsError], [NotADirectoryError],
    [IsADirectoryError], [PermissionError]. *)
Inductive errno : Type := ENOENT | EEXIST | ENOTDIR | EISDIR | EACCES.

Inductive exn : Type :=
| Exception (msg : string)
| JSONDecodeError (msg : string)
| UnicodeDecodeError (msg : string)
| AttributeError (msg : string)
| TypeError (msg : string)
| KeyError (msg : string)
| OSError (code : errno) (filename : string).

Definition strerror (e : errno) : string :=
  match e with
  | ENOENT => "[Errno 2] No such file or directory"
  | EEXIST => "[Errno 17] File exists"
  | ENOTDIR => "[Errno 20] Not a directory"
  | EISDIR => "[Errno 21] Is a directory"
  | EACCES => "[Errno 13] Permission denied"
  end.

(** [str(e)].  The file name of an [OSError] is shown as [repr] shows a
    string of printable characters without quotes or backslashes. *)
Definition str_exn (e : exn) : string :=
  match e with
  | Exception m | JSONDecodeError m | UnicodeDecodeError m
  | AttributeError m | TypeError m | KeyError m => m
  | OSError code f => strerror code +:+ ": '" +:+ f +:+ "'"
  end.

(** ** The file tree *)

Inductive node : Type :=
| File (content : string)
| Dir (entries : list (string * node)).

Definition is_dir (n : node) : bool :=
  match n with Dir _ => true | File _ => false end.

(** The entry named [x] of a directory. *)
Fixpoint entry_get (x : string) (es : list (string * node)) : option node :=
  match es with
  | [] => None
  | (y, n) :: es' => if String.eqb x y then Some n else entry_get x es'
  end.

(** Replace the entry named [x], or add it after the others. *)
Fixpoint entry_put (x : string) (n : node) (es : list (string * node))
  : list (string * node) :=
  match es with
  | [] => [(x, n)]
  | (y, m) :: es' =>
      if String.eqb x y then (y, n) :: es' else (y, m) :: entry_put x n es'
  end.

(** The node reached from [root] through the directory entries [names]. *)
Fixpoint node_at (root : node) (names : list string) : option node :=
  match names with
  | [] => Some root
  | x :: rest =>
      match root with
      | Dir es =>
          match entry_get x es with
          | Some n => node_at n rest
          | None => None
          end
      | File _ => None
      end
  end.

(** Put [new] at [names]; the directories on the way must exist. *)
Fixpoint node_set (root : node) (names : list string) (new : node) : node :=
  match names with
  | [] => new
  | x :: rest =>
      match root with
      | Dir es =>
          match entry_get x es with
          | Some n => Dir (entry_put x (node_set n rest new) es)
          | None =>
              match rest with
              | [] => Dir (entry_put x new es)
              | _ :: _ => root
              end
          end
      | File _ => root
      end
  end.

Definition is_dot (c : string) : bool := String.eqb c "" || String.eqb c ".".
Definition is_dotdot (c : string) : bool := String.eqb c "..".

(** Path resolution: follow the components from the directory at [cur];
    every component is looked up in a directory.  The result is the place
    the path names, which need not exist. *)
Fixpoint walk (root : node) (cur : list string) (comps : list string)
  : errno + list string :=
  match comps with
  | [] => inr cur
  | c :: rest =>
      match node_at root cur with
      | None => inl ENOENT
      | Some (File _) => inl ENOTDIR
      | Some (Dir _) =>
          if is_dot c then walk root cur rest
          else if is_dotdot c then walk root (removelast cur) rest
          else walk root (cur ++ [c]) rest
      end
  end.

(** The place a path names: the empty path names nothing. *)
Definition resolve (root : node) (p : string) : errno + list string :=
  if String.eqb p "" then inl ENOENT else walk root [] (split_slash p).

(** [os.stat(p)], as far as the tools look at it. *)
Definition stat (root : node) (p : string) : errno + node :=
  match resolve root p with
  | inl e => inl e
  | inr cur =>
      match node_at root cur with
      | Some n => inr n
      | None => inl ENOENT
      end
  end.

(** What the tools can see of a place: a file and its text, or a
    directory. *)
Inductive view : Type :=
| VFile (content : string)
| VDir.

Definition view_of (n : node) : view :=
  match n with
  | File c => VFile c
  | Dir _ => VDir
  end.

Definition view_at (fs : node) (q : list string) : option view :=
  view_of <$> node_at fs q.

(** [Some true] at a directory, [Some false] at a file. *)
Definition kind_at (fs : node) (q : list string) : option bool :=
  is_dir <$> node_at fs q.

Definition childless (n : node) : Prop :=
  match n with
  | File _ => True
  | Dir es => es = []
  end.

(** A name a directory entry can have: not empty, no slash, neither [.]
    nor [..]. *)
Definition proper_name (x : string) : bool :=
  negb (has_slash x) && negb (is_dot x) && negb (is_dotdot x).

Fixpoint distinct_names (names : list string) : bool :=
  match names with
  | [] => true
  | x :: rest => negb (existsb (String.eqb x) rest) && distinct_names rest
  end.

Definition wf_entries (es : list (string * node)) : bool :=
  forallb proper_name (map fst es) && distinct_names (map fst es).

(** A well-formed tree: in every directory the entries have proper and
    distinct names. *)
Fixpoint wf_tree (n : node) : bool :=
  match n with
  | File _ => true
  | Dir es => wf_entries es && forallb (fun e => wf_tree (snd e)) es
  end.


(** ** The monad of the tools: the file tree as state, exceptions *)

Inductive outcome (A : Type) : Type :=
| Returned (a : A)
| Raised (e : exn).
Arguments Returned {A} a.
Arguments Raised {A} e.

Definition M (A : Type) : Type := node -> outcome A * node.

Definition ret {A} (a : A) : M A := fun fs => (Returned a, fs).

Definition raise {A} (e : exn) : M A := fun fs => (Raised e, fs).

Definition bind {A B} (m : M A) (k : A -> M B) : M B :=
  fun fs =>
    match m fs with
    | (Returned a, fs') => k a fs'
    | (Raised e, fs') => (Raised e, fs')
    end.

Notation "x <- c ;; k" := (bind c (fun x => k))
  (at level 100, c at next level, right associativity).

(** [try: body  except Exception as e: handler e].  What [body] did to the
    files before it raised stays done. *)
Definition try_except {A} (body : M A) (handler : exn -> M A) : M A :=
  fun fs =>
    match body fs with
    | (Returned a, fs') => (Returned a, fs')
    | (Raised e, fs') => handler e fs'
    end.

(** A [try] whose [except Exception as e] branch leaves the function: the
    caller gets the exception as a value. *)
Definition attempt {A} (body : M A) : M (exn + A) :=
  try_except (a <- body ;; ret (inr a)) (fun e => ret (inl e)).

(** ** The file system calls the tools make *)

(** [os.path.exists(p)] *)
Definition os_path_exists (p : string) : M bool :=
  fun fs => (Returned (match stat fs p with inr _ => true | inl _ => false end), fs).

(** [os.path.isdir(p)] *)
Definition os_path_isdir (p : string) : M bool :=
  fun fs => (Returned (match stat fs p with inr n => is_dir n | inl _ => false end), fs).

(** [os.listdir(p)]: the names of the entries, in the directory's order. *)
Definition os_listdir (p : string) : M (list string) :=
  fun fs =>
    match stat fs p with
    | inr (Dir es) => (Returned (map fst es), fs)
    | inr (File _) => (Raised (OSError ENOTDIR p), fs)
    | inl e => (Raised (OSError e p), fs)
    end.

(** [with open(p, 'r', encoding='utf-8') as file: file.read()] *)
Definition open_read (p : string) : M string :=
  fun fs =>
    match stat fs p with
    | inr (File content) => (Returned content, fs)
    | inr (Dir _) => (Raised (OSError EISDIR p), fs)
    | inl e => (Raised (OSError e p), fs)
    end.

(** [with open(p, 'w', encoding='utf-8') as file: file.write(content)]:
    the file is created in its directory, or its content replaced. *)
Definition open_write (p content : string) : M unit :=
  fun fs =>
    match resolve fs p with
    | inl e => (Raised (OSError e p), fs)
    | inr cur =>
        match node_at fs cur with
        | Some (Dir _) => (Raised (OSError EISDIR p), fs)
        | Some (File _) | None => (Returned tt, node_set fs cur (File content))
        end
    end.

(** [os.makedirs] from the directory at [cur]: every missing directory on
    the way is created; a file on the way stops it, with the name reached
    so far ([seen], the components read). *)
Fixpoint makedirs_from (fs : node) (cur seen comps : list string)
  : outcome unit * node :=
  match comps with
  | [] => (Returned tt, fs)
  | c :: rest =>
      if is_dot c then makedirs_from fs cur (seen ++ [c]) rest
      else if is_dotdot c then makedirs_from fs (removelast cur) (seen ++ [c]) rest
      else
        match node_at fs (cur ++ [c]) with
        | Some (Dir _) => makedirs_from fs (cur ++ [c]) (seen ++ [c]) rest
        | Some (File _) =>
            match rest with
            | [] => (Raised (OSError EEXIST (str_join "/" (seen ++ [c]))), fs)
            | c' :: _ =>
                (Raised (OSError ENOTDIR (str_join "/" (seen ++ [c; c']))), fs)
            end
        | None =>
            makedirs_from (node_set fs (cur ++ [c]) (Dir [])) (cur ++ [c])
              (seen ++ [c]) rest
        end
  end.

(** [os.makedirs(p, exist_ok=True)] *)
Definition os_makedirs (p : string) : M unit :=
  fun fs =>
    if String.eqb p "" then (Raised (OSError ENOENT p), fs)
    else match fs with
         | Dir _ => makedirs_from fs [] [] (split_slash p)
         | File _ => (Raised (OSError ENOTDIR p), fs)
         end.

(** ** JSON text: [json.dumps] *)

Inductive json : Type :=
| JString (s : string)
| JInt (n : nat)
| JArray (items : list json)
| JObject (fields : list (string * json)).

Definition hex_digit (n : nat) : ascii :=
  ascii_of_nat (if n <? 10 then 48 + n else 87 + n).

(** One character of a JSON string, as [json.dumps] writes it with
    [ensure_ascii]: the short escapes, the character itself from the space
    to the tilde, and a [\u] escape for any other. *)
Definition json_escape_char (c : ascii) : string :=
  let n := nat_of_ascii c in
  if n =? 34 then String "\" (String dquote EmptyString)
  else if n =? 92 then "\\"
  else if n =? 8 then "\b"
  else if n =? 12 then "\f"
  else if n =? 10 then "\n"
  else if n =? 13 then "\r"
  else if n =? 9 then "\t"
  else if (32 <=? n) && (n <=? 126) then String c EmptyString
  else "\u00" +:+ String (hex_digit (n / 16)) (String (hex_digit (n mod 16)) EmptyString).

Fixpoint json_escape (s : string) : string :=
  match s with
  | EmptyString => EmptyString
  | String c rest => json_escape_char c +:+ json_escape rest
  end.

Definition json_string (s : string) : string :=
  String dquote (json_escape s +:+ String dquote EmptyString).

(** [str(n)] *)
Definition str_nat (n : nat) : string :=
  NilZero.string_of_uint (Nat.to_uint n).

(** [json.dumps(v)], with its default separators. *)
Fixpoint json_dumps (v : json) : string :=
  match v with
  | JString s => json_string s
  | JInt n => str_nat n
  | JArray items =>
      "[" +:+
      (fix dump_items (l : list json) : string :=
         match l with
         | [] => EmptyString
         | x :: rest =>
             match rest with
             | [] => json_dumps x
             | _ :: _ => json_dumps x +:+ ", " +:+ dump_items rest
             end
         end) items +:+ "]"
  | JObject fields =>
      "{" +:+
      (fix dump_fields (l : list (string * json)) : string :=
         match l with
         | [] => EmptyString
         | (k, x) :: rest =>
             match rest with
             | [] => json_string k +:+ ": " +:+ json_dumps x
             | _ :: _ =>
                 json_string k +:+ ": " +:+ json_dumps x +:+ ", " +:+ dump_fields rest
             end
         end) fields +:+ "}"
  end.

(** ** The tools *)

(** What a tool returns: the result text and the error slot. *)
Definition tool_result : Type := string * option exn.

(** The convention for failures: a result with an error has an empty
    text, and neither it nor an exception has changed the files. *)
Definition clean_failure (fs : node) (r : outcome tool_result * node) : Prop :=
  match r with
  | (Returned (text, Some _), fs') => text = "" /\ fs' = fs
  | (Returned (_, None), _) => True
  | (Raised _, fs') => fs' = fs
  end.

(** [input_dict.get(key, default)]: only a [dict] has the method. *)
Definition dict_get (input_dict : pyobj) (key default_value : string) : M string :=
  match input_dict with
  | PyDict d => ret (default default_value (d !! key))
  | _ =>
      raise (AttributeError
               ("'" +:+ type_name input_dict +:+ "' object has no attribute 'get'"))
  end.

(** ["path" not in input_dict]: a key of a [dict], a substring of a [str],
    an item of a [list]; a value of another type cannot be searched. *)
Definition lacks_path (input_dict : pyobj) : M bool :=
  match input_dict with
  | PyDict d => ret (bool_decide (d !! "path" = None))
  | PyStr s => ret (negb (occursb "path" s))
  | PyList items =>
      ret (negb (existsb (fun v => match v with
                                   | PyStr s => String.eqb s "path"
                                   | _ => false
                                   end) items))
  | PyBytes _ =>
      raise (TypeError "a bytes-like object is required, not 'str'")
  | PyOther t =>
      raise (TypeError ("argument of type '" +:+ t +:+ "' is not iterable"))
  end.

(** [input_dict["path"]] *)
Definition dict_item_path (input_dict : pyobj) : M string :=
  match input_dict with
  | PyDict d =>
      match d !! "path" with
      | Some v => ret v
      | None => raise (KeyError "'path'")
      end
  | PyStr _ => raise (TypeError "string indices must be integers, not 'str'")
  | PyList _ => raise (TypeError "list indices must be integers or slices, not str")
  | PyBytes _ => raise (TypeError "byte indices must be integers or slices, not str")
  | PyOther t => raise (TypeError ("'" +:+ t +:+ "' object is not subscriptable"))
  end.

(** The field [key] of an input dictionary, empty when it is absent:
    [input_dict.get(key, "")]. *)
Definition field (d : gmap string string) (key : string) : string :=
  default "" (d !! key).

Section Tools.

(** [json.loads]: the decoded value, or the message of the
    [JSONDecodeError]. *)
Variable json_loads : string -> string + pyobj.

(** [bytes.decode('utf-8')]: the text, or the message of the
    [UnicodeDecodeError]. *)
Variable bytes_decode : list Byte.byte -> string + string.

Definition loads (s : string) : M pyobj :=
  match json_loads s with
  | inr v => ret v
  | inl msg => raise (JSONDecodeError msg)
  end.

Definition decode (b : list Byte.byte) : M string :=
  match bytes_decode b with
  | inr s => ret s
  | inl msg => raise (UnicodeDecodeError msg)
  end.

(** An input, in one of the three accepted representations, and the
    value the tools decode it to. *)
Inductive decodes_to : pyobj -> pyobj -> Prop :=
| decodes_dict d : decodes_to (PyDict d) (PyDict d)
| decodes_str s v : json_loads s = inr v -> decodes_to (PyStr s) v
| decodes_bytes b s v :
    bytes_decode b = inr s -> json_loads s = inr v -> decodes_to (PyBytes b) v.

(** The two [except] clauses that close every tool. *)
Definition tool_boundary (e : exn) : M tool_result :=
  match e with
  | JSONDecodeError msg =>
      ret ("", Some (Exception ("Invalid JSON input: " +:+ msg)))
  | _ => ret ("", Some e)
  end.

(** *** read_file_tool.py *)

(** [read_file] from "Get the path from the input" on. *)
Definition read_file_parsed (input_dict : pyobj) : M tool_result :=
  missing <- lacks_path input_dict ;;
  if missing : bool then ret ("", Some (Exception "No 'path' field in input"))
  else
    file_path <- dict_item_path input_dict ;;
    found <- os_path_exists file_path ;;
    if negb found then ret ("", Some (Exception ("File not found: " +:+ file_path)))
    else
      content <- open_read file_path ;;
      ret (content, None).

Definition read_file (input_data : pyobj) : M tool_result :=
  try_except
    match input_data with
    | PyStr s =>
        input_dict <- loads s ;;
        read_file_parsed input_dict
    | PyDict _ => read_file_parsed input_data
    | PyBytes b =>
        s <- decode b ;;
        input_dict <- loads s ;;
        read_file_parsed input_dict
    | _ => ret ("", Some (Exception ("Unknown input format: " +:+ type_repr input_data)))
    end
    tool_boundary.

(** *** list_files_tool.py *)

(** The loop over [os.listdir(dir_path)]: [files] grows by one name per
    item, with a slash after the name of a directory. *)
Fixpoint list_items (dir_path : string) (items files : list string)
  : M (list string) :=
  match items with
  | [] => ret files
  | item :: rest =>
      let item_path := os_path_join dir_path item in
      d <- os_path_isdir item_path ;;
      list_items dir_path rest (files ++ [if d : bool then item +:+ "/" else item])
  end.

(** [files.sort()]: ascending, strings compared by their characters'
    codes. *)
Definition list_sort (files : list string) : list string :=
  merge_sort String.le files.

(** [list_files] from "Get the path from the input" on. *)
Definition list_files_parsed (input_dict : pyobj) : M tool_result :=
  dir_path <- dict_get input_dict "path" "." ;;
  found <- os_path_exists dir_path ;;
  if negb found then ret ("", Some (Exception ("Directory not found: " +:+ dir_path)))
  else
    d <- os_path_isdir dir_path ;;
    if negb d then ret ("", Some (Exception ("Path is not a directory: " +:+ dir_path)))
    else
      listed <- try_except
                  (items <- os_listdir dir_path ;;
                   files <- list_items dir_path items [] ;;
                   ret (inr files))
                  (fun e => match e with
                            | OSError EACCES _ => ret (inl e)
                            | _ => raise e
                            end) ;;
      match listed with
      | inl _ =>
          ret ("", Some (Exception ("Permission denied accessing directory: " +:+ dir_path)))
      | inr files =>
          let files := list_sort files in
          let result_json :=
            json_dumps (JObject [("files", JArray (map JString files));
                                 ("directory", JString dir_path);
                                 ("count", JInt (length files))]) in
          ret (result_json, None)
      end.

Definition list_files (input_data : pyobj) : M tool_result :=
  try_except
    match input_data with
    | PyStr s =>
        input_dict <- loads s ;;
        list_files_parsed input_dict
    | PyDict _ => list_files_parsed input_data
    | PyBytes b =>
        s <- decode b ;;
        input_dict <- loads s ;;
        list_files_parsed input_dict
    | _ => ret ("", Some (Exception ("Unknown input format: " +:+ type_repr input_data)))
    end
    tool_boundary.

(** *** edit_file_tool.py *)

Definition create_new_file (file_path content : string) : M string :=
  try_except
    (let dir_path := os_path_dirname file_path in
     _ <- (if negb (String.eqb dir_path "") && negb (String.eqb dir_path ".")
           then os_makedirs dir_path
           else ret tt) ;;
     _ <- open_write file_path content ;;
     ret ("Successfully created file " +:+ file_path))
    (fun e => ret ("Failed to create file: " +:+ str_exn e)).

(** [edit_file] from "Get the required fields from the input" on. *)
Definition edit_file_parsed (input_dict : pyobj) : M tool_result :=
  file_path <- dict_get input_dict "path" "" ;;
  old_str <- dict_get input_dict "old_str" "" ;;
  new_str <- dict_get input_dict "new_str" "" ;;
  if String.eqb file_path "" || String.eqb old_str new_str
  then ret ("", Some (Exception "Invalid input parameters"))
  else
    found <- os_path_exists file_path ;;
    if negb found then
      if String.eqb old_str "" then
        result <- create_new_file file_path new_str ;;
        ret (result, None)
      else ret ("", Some (Exception ("File not found: " +:+ file_path)))
    else
      read <- attempt (open_read file_path) ;;
      match read with
      | inl e => ret ("", Some (Exception ("Failed to read file: " +:+ str_exn e)))
      | inr old_content =>
          let new_content := str_replace old_str new_str old_content in
          if String.eqb old_content new_content && negb (String.eqb old_str "")
          then ret ("", Some (Exception "old_str not found in file"))
          else
            written <- attempt (open_write file_path new_content) ;;
            match written with
            | inl e =>
                ret ("", Some (Exception ("Failed to write file: " +:+ str_exn e)))
            | inr _ => ret ("OK", None)
            end
      end.

Definition edit_file (input_data : pyobj) : M tool_result :=
  try_except
    match input_data with
    | PyStr s =>
        input_dict <- loads s ;;
        edit_file_parsed input_dict
    | PyDict _ => edit_file_parsed input_data
    | PyBytes b =>
        s <- decode b ;;
        input_dict <- loads s ;;
        edit_file_parsed input_dict
    | _ => ret ("", Some (Exception ("Unknown input format: " +:+ type_repr input_data)))
    end
    tool_boundary.

(** *** tools_definition.py and the three definitions *)

Record ToolDefinition : Type := {
  name : string;
  description : string;
  input_schema : json;
  function : pyobj -> M tool_result
}.

Definition string_property (field text : string) : string * json :=
  (field, JObject [("type", JString "string"); ("description", JString text)]).

Definition ReadFileInputSchema : json :=
  JObject [("type", JString "object");
           ("properties",
            JObject [string_property "path"
                       "The relative path of a file in the working directory."]);
           ("required", JArray [JString "path"])].

Definition ListFilesInputSchema : json :=
  JObject [("type", JString "object");
           ("properties",
            JObject [string_property "path"
                       "Optional relative path to list files from. Defaults to current directory if not provided."]);
           ("required", JArray [])].

Definition EditFileInputSchema : json :=
  JObject [("type", JString "object");
           ("properties",
            JObject [string_property "path" "The path to the file";
                     string_property "old_str"
                       "Text to search for - must match exactly and must only have one match exactly";
                     string_property "new_str" "Text to replace old_str with"]);
           ("required", JArray [JString "path"; JString "old_str"; JString "new_str"])].

Definition ReadFileDefinition : ToolDefinition := {|
  name := "read_file";
  description := "Read the contents of a given relative file path. Use this when you want to see what's inside a file. Do not use this with directory names.";
  input_schema := ReadFileInputSchema;
  function := read_file
|}.

Definition ListFilesDefinition : ToolDefinition := {|
  name := "list_files";
  description := "List files and directories at a given path. If no path is provided, lists files in the current directory.";
  input_schema := ListFilesInputSchema;
  function := list_files
|}.

Definition EditFileDefinition : ToolDefinition := {|
  name := "edit_file";
  description := "Make edits to a text file. Replaces 'old_str' with 'new_str' in the given file. 'old_str' and 'new_str' MUST be different from each other. If the file specified with path doesn't exist, it will be created.";
  input_schema := EditFileInputSchema;
  function := edit_file
|}.

End Tools.

(** ** main.py: the agent *)

(** A block of the model's reply.  [OtherBlock] has a [type] that is
    neither ["text"] nor ["tool_use"]; [UntypedBlock] has no [type]. *)
Inductive content_block : Type :=
| TextBlock (text : string)
| ToolUseBlock (id name : string) (input : pyobj)
| OtherBlock (type_ : string)
| UntypedBlock (text : string).

(** The dictionary [execute_tool] returns; its ["type"] is
    ["tool_result"]. *)
Record tool_result_block : Type := {
  tool_use_id : string;
  content : string;
  is_error : bool
}.

Inductive message_content : Type :=
| UserText (text : string)
| ModelBlocks (blocks : list content_block)
| ToolResults (results : list tool_result_block).

Record message : Type := {
  role : string;
  message_content_of : message_content
}.

(** What the agent prints. *)
Inductive output : Type :=
| PrintWelcome
| PrintPrompt
| PrintClaude (text : string)
| PrintTool (tool_name : string) (tool_input : pyobj)
| PrintDebugInput (tool_input : pyobj)
| PrintDebugException (e : exn)
| PrintApiError (e : exn).

(** The first tool of the list with the name asked for. *)
Definition find_tool (tools : list ToolDefinition) (tool_name : string)
  : option ToolDefinition :=
  List.find (fun tool => String.eqb (name tool) tool_name) tools.

(** [Agent.execute_tool]: the result block, the files after the call, and
    what was printed. *)
Definition execute_tool (tools : list ToolDefinition)
    (tool_id tool_name : string) (tool_input : pyobj) (fs : node)
  : tool_result_block * node * list output :=
  match find_tool tools tool_name with
  | None =>
      ({| tool_use_id := tool_id; content := "tool not found"; is_error := true |},
       fs, [])
  | Some tool_def =>
      let echo := [PrintTool tool_name tool_input; PrintDebugInput tool_input] in
      match function tool_def tool_input fs with
      | (Returned (response, Some error), fs') =>
          ({| tool_use_id := tool_id; content := str_exn error; is_error := true |},
           fs', echo)
      | (Returned (response, None), fs') =>
          ({| tool_use_id := tool_id; content := response; is_error := false |},
           fs', echo)
      | (Raised e, fs') =>
          ({| tool_use_id := tool_id; content := str_exn e; is_error := true |},
           fs', echo ++ [PrintDebugException e])
      end
  end.

(** The loop of [Agent.run] over the blocks of a reply: [tool_results]
    grows by one block per [tool_use]. *)
Fixpoint dispatch_blocks (tools : list ToolDefinition)
    (blocks : list content_block) (tool_results : list tool_result_block)
    (fs : node) (out : list output)
  : list tool_result_block * node * list output :=
  match blocks with
  | [] => (tool_results, fs, out)
  | TextBlock text :: rest =>
      dispatch_blocks tools rest tool_results fs (out ++ [PrintClaude text])
  | ToolUseBlock id name input :: rest =>
      let '(result, fs', printed) := execute_tool tools id name input fs in
      dispatch_blocks tools rest (tool_results ++ [result]) fs' (out ++ printed)
  | OtherBlock _ :: rest =>
      dispatch_blocks tools rest tool_results fs out
  | UntypedBlock text :: rest =>
      dispatch_blocks tools rest tool_results fs (out ++ [PrintClaude text])
  end.

(** The state of [Agent.run] between two passes of its [while] loop: the
    local variables, the files, the lines still to be read from the user
    and what was printed so far. *)
Record agent_state : Type := {
  conversation : list message;
  waiting_for_user_input : bool;
  files : node;
  stdin : list string;
  stdout : list output
}.

Section Agent.

Variable tools : list ToolDefinition.

(** [Agent.run_inference]: the blocks of the reply, or the exception of a
    failed call. *)
Variable run_inference : list message -> exn + list content_block.

(** Everything of a pass after the user's line is in the conversation:
    the call of the model and the handling of its reply. *)
Definition model_turn (st : agent_state) : agent_state :=
  match run_inference (conversation st) with
  | inl e =>
      {| conversation := conversation st;
         waiting_for_user_input := true;
         files := files st;
         stdin := stdin st;
         stdout := stdout st ++ [PrintApiError e] |}
  | inr response_content =>
      let conversation1 :=
        conversation st ++
        [{| role := "assistant"; message_content_of := ModelBlocks response_content |}] in
      let '(tool_results, fs', out) :=
        dispatch_blocks tools response_content [] (files st) (stdout st) in
      if Nat.eqb (length tool_results) 0 then
        {| conversation := conversation1;
           waiting_for_user_input := true;
           files := fs';
           stdin := stdin st;
           stdout := out |}
      else
        {| conversation :=
             conversation1 ++
             [{| role := "user"; message_content_of := ToolResults tool_results |}];
           waiting_for_user_input := false;
           files := fs';
           stdin := stdin st;
           stdout := out |}
  end.

(** One pass of the [while True] loop; [None] is the [break] at the end of
    the user's input. *)
Definition run_pass (st : agent_state) : option agent_state :=
  if waiting_for_user_input st then
    match stdin st with
    | [] => None
    | user_input :: later =>
        Some (model_turn
                {| conversation :=
                     conversation st ++
                     [{| role := "user"; message_content_of := UserText user_input |}];
                   waiting_for_user_input := true;
                   files := files st;
                   stdin := later;
                   stdout := stdout st ++ [PrintPrompt] |})
    end
  else Some (model_turn st).

(** [Agent.run], for at most [passes] passes of its loop. *)
Fixpoint run_loop (passes : nat) (st : agent_state) : agent_state :=
  match passes with
  | O => st
  | S n =>
      match run_pass st with
      | None => st
      | Some st' => run_loop n st'
      end
  end.

Definition run (passes : nat) (fs : node) (user_lines : list string) : agent_state :=
  run_loop passes
    {| conversation := [];
       waiting_for_user_input := true;
       files := fs;
       stdin := user_lines;
       stdout := [PrintWelcome] |}.

(** The [tool_use] blocks of a reply, as (id, name, input). *)
Fixpoint tool_uses (blocks : list content_block) : list (string * string * pyobj) :=
  match blocks with
  | [] => []
  | ToolUseBlock id name input :: rest => (id, name, input) :: tool_uses rest
  | _ :: rest => tool_uses rest
  end.

End Agent.

(** ** main.py: the request to the model, and [main] *)

(** What [client.messages.create] is called with.  [declared_tools] is
    [None] when the call names no tools. *)
Record request : Type := {
  request_model : string;
  max_tokens : nat;
  messages : list message;
  declared_tools : option (list (string * string * json))
}.

(** The list [run_inference] builds from the tools of the agent: name,
    description and input schema of each. *)
Definition anthropic_tools (tools : list ToolDefinition)
  : list (string * string * json) :=
  map (fun tool => (name tool, description tool, input_schema tool)) tools.

(** [Agent.run_inference], for the agent of [model] with [tools]. *)
Definition run_inference (client : request -> exn + list content_block)
    (model : string) (tools : list ToolDefinition) (conversation : list message)
  : exn + list content_block :=
  client {| request_model := model;
            max_tokens := 1024;
            messages := conversation;
            declared_tools := Some (anthropic_tools tools) |}.

Definition test_models : list string :=
  ["claude-3-5-sonnet-20250106";
   "claude-3-5-sonnet-20241022";
   "claude-3-5-haiku-20241022";
   "claude-3-haiku-20240307";
   "claude-3-opus-20240229";
   "claude-3-5-sonnet-latest"].

(** The request [main] tries a model with. *)
Definition test_request (model : string) : request := {|
  request_model := model;
  max_tokens := 5;
  messages := [{| role := "user"; message_content_of := UserText "test" |}];
  declared_tools := None
|}.

(** What [main] prints before the agent starts. *)
Inductive startup_output : Type :=
| PrintNoApiKey
| PrintTesting
| PrintWorks (model : string)
| PrintFails (model : string) (e : exn)
| PrintNoWorkingModel.

(** The loop of [main] over the models to try: it stops at the first
    model the client answers for. *)
Fixpoint probe (client : request -> exn + list content_block)
    (models : list string) : option string * list startup_output :=
  match models with
  | [] => (None, [])
  | model :: rest =>
      match client (test_request model) with
      | inr _ => (Some model, [PrintWorks model])
      | inl e =>
          let '(working_model, printed) := probe client rest in
          (working_model, PrintFails model e :: printed)
      end
  end.

(** The tools [main] gives the agent. *)
Definition file_tools (json_loads : string -> string + pyobj)
    (bytes_decode : list Byte.byte -> string + string) : list ToolDefinition :=
  [ReadFileDefinition json_loads bytes_decode;
   ListFilesDefinition json_loads bytes_decode;
   EditFileDefinition json_loads bytes_decode].

(** [main], with the environment as arguments: the API key, the client,
    the files and the lines the user types; the agent runs for at most
    [passes] passes of its loop.  The result is what was printed at the
    start and, when the agent was started, its last state. *)
Definition main (json_loads : string -> string + pyobj)
    (bytes_decode : list Byte.byte -> string + string)
    (passes : nat) (api_key : option string)
    (client : request -> exn + list content_block)
    (fs : node) (user_lines : list string)
  : list startup_output * option agent_state :=
  match api_key with
  | None | Some EmptyString => ([PrintNoApiKey], None)
  | Some (String _ _) =>
      let '(working_model, printed) := probe client test_models in
      match working_model with
      | None => (PrintTesting :: printed ++ [PrintNoWorkingModel], None)
      | Some model =>
          let tools := file_tools json_loads bytes_decode in
          (PrintTesting :: printed,
           Some (run tools (run_inference client model tools) passes fs user_lines))
      end
  end.

(** ** The shape of a conversation *)

(** The texts the user typed, in the order of the conversation. *)
Definition user_texts (conversation : list message) : list string :=
  flat_map (fun m => match message_content_of m with
                     | UserText text => [text]
                     | _ => []
                     end) conversation.

(** The ids of the [tool_use] blocks of a reply, in order. *)
Definition block_ids (blocks : list content_block) : list string :=
  map (fun u => fst (fst u)) (tool_uses blocks).

(** A message in its place behind [prev]: the role goes with the content,
    and a message of tool results stands behind the assistant message whose
    [tool_use] blocks it answers, one result per block and in their order. *)
Definition answers (prev : option message) (m : message) : bool :=
  match message_content_of m with
  | UserText _ => String.eqb (role m) "user"
  | ModelBlocks _ => String.eqb (role m) "assistant"
  | ToolResults results =>
      String.eqb (role m) "user" &&
      match prev with
      | Some p =>
          match message_content_of p with
          | ModelBlocks blocks =>
              negb (Nat.eqb (length results) 0) &&
              bool_decide (map tool_use_id results = block_ids blocks)
          | _ => false
          end
      | None => false
      end
  end.

Fixpoint linked_after (prev : option message) (conversation : list message) : bool :=
  match conversation with
  | [] => true
  | m :: rest => answers prev m && linked_after (Some m) rest
  end.

(** Every message of the conversation is in its place. *)
Definition linked (conversation : list message) : bool :=
  linked_after None conversation.

(** ** What a call leaves of the files *)

(** [fs'] has every file and every directory of [fs], each file with the
    text it had, but for the text of the file at [cur]. *)
Definition keeps_files (cur : list string) (fs fs' : node) : Prop :=
  forall q v, view_at fs q = Some v ->
    view_at fs' q = Some v \/
    (q = cur /\ exists c c', v = VFile c /\ view_at fs' q = Some (VFile c')).

(** The tool of the name keeps [P] of the files, whatever its input. *)
Definition tool_keeps (tools : list ToolDefinition) (P : node -> Prop)
    (tool_name : string) : Prop :=
  forall tool, find_tool tools tool_name = Some tool ->
  forall input fs, P fs -> P (snd (function tool input fs)).

(** ** Runs of the agent *)

(** The message [Agent.run] adds for a line of the user. *)
Definition user_message (text : string) : message :=
  {| role := "user"; message_content_of := UserText text |}.

(** What passes of the loop may do: append to the conversation and to the
    output, and take lines from the front of the input; a conversation
    whose messages are in their places stays so. *)
Definition extends (st st' : agent_state) : Prop :=
  exists added printed,
    conversation st' = conversation st ++ added /\
    stdout st' = stdout st ++ printed /\
    stdin st = user_texts added ++ stdin st' /\
    (linked (conversation st) = true -> linked (conversation st') = true).

(** The client raises on the test request for the model. *)
Definition fails (client : request -> exn + list content_block) (model : string) : Prop :=
  exists e, client (test_request model) = inl e.

(** What [main] prints for the models that fail, one line per model. *)
Definition failure_lines (client : request -> exn + list content_block)
    (models : list string) : list startup_output :=
  flat_map (fun model => match client (test_request model) with
                         | inl e => [PrintFails model e]
                         | inr _ => []
                         end) models.

(** ** Sample inputs *)

(** The JSON text of an object whose field [path] is [notes.txt]. *)
Definition sample_text : string :=
  "{" +:+ String dquote ("path" +:+ String dquote (": " +:+
  String dquote ("notes.txt" +:+ String dquote "}"))).

(** A decoder that knows [sample_text] only. *)
Definition sample_loads (s : string) : string + pyobj :=
  if String.eqb s sample_text then inr (PyDict {[ "path" := "notes.txt" ]})
  else inl "Expecting value: line 1 column 1 (char 0)".

(** Bytes read as one character each. *)
Definition sample_decode (b : list Byte.byte) : string + string :=
  inr (String.string_of_list_byte b).

(** A working directory with three files and two directories. *)
Definition sample_tree : node :=
  Dir [("b.txt", File "B");
       ("a.txt", File "hello");
       ("sub", Dir [("x", File "X")]);
       ("notes.txt", File "to do")].


Definition sample_fields (path old_str new_str : string) : gmap string string :=
  {[ "path" := path; "old_str" := old_str; "new_str" := new_str ]}.

Definition sample_edit (path old_str new_str : string) : pyobj :=
  PyDict (sample_fields path old_str new_str).

Definition sample_tools : list ToolDefinition :=
  [ReadFileDefinition sample_loads sample_decode;
   ListFilesDefinition sample_loads sample_decode;
   EditFileDefinition sample_loads sample_decode].

(** A reply with a text and two [tool_use] blocks, the second for a tool
    that does not exist. *)
Definition sample_reply : list content_block :=
  [TextBlock "Let me look.";
   ToolUseBlock "toolu_1" "read_file" (PyDict {[ "path" := "a.txt" ]});
   ToolUseBlock "toolu_2" "delete_file" (PyDict {[ "path" := "a.txt" ]})].

Definition sample_inference (conversation : list message)
  : exn + list content_block :=
  inr sample_reply.

Definition sample_state : agent_state := {|
  conversation := [{| role := "user"; message_content_of := UserText "show a.txt" |}];
  waiting_for_user_input := true;
  files := sample_tree;
  stdin := [];
  stdout := [PrintWelcome; PrintPrompt]
|}.

(** A decoder for a text that holds a JSON array. *)
Definition sample_loads_array (s : string) : string + pyobj :=
  inr (PyList []).

(** A model that cannot be reached. *)
Definition sample_failing_inference (conversation : list message)
  : exn + list content_block :=
  inl (Exception "overloaded").

(** A client that knows the third model of [test_models] only. *)
Definition sample_client (r : request) : exn + list content_block :=
  if String.eqb (request_model r) "claude-3-5-haiku-20241022"
  then inr [TextBlock "ok"]
  else inl (Exception "model not found").

(** * Properties *)

#[local] Arguments String.append : simpl nomatch.

(** ** Strings *)


Lemma str_length_app a b : String.length (a +:+ b) = String.length a + String.length b.
Proof. induction a as [|x a IH]; simpl; [done | by rewrite IH]. Qed.

Lemma str_app_inv_head a b c : a +:+ b = a +:+ c -> b = c.
Proof. induction a as [|x a IH]; simpl; intros H; [done | injection H; auto]. Qed.

Lemma str_app_same_length a a' b b' :
  a +:+ b = a' +:+ b' -> String.length a = String.length a' -> a = a' /\ b = b'.
Proof.
  revert a'. induction a as [|x a IH]; intros [|x' a']; simpl; intros H L;
    try discriminate; [done|].
  injection H as -> H. injection L as L. destruct (IH _ H L) as [-> ->]. done.
Qed.

Lemma prefix_app a b : String.prefix a (a +:+ b) = true.
Proof.
  induction a as [|x a IH]; simpl; [by destruct b|].
  destruct (ascii_dec x x); [done | congruence].
Qed.

Lemma prefix_inv a s : String.prefix a s = true -> exists b, s = a +:+ b.
Proof.
  revert s. induction a as [|x a IH]; intros s H.
  - exists s. done.
  - destruct s as [|y s]; simpl in H; [done|].
    destruct (ascii_dec x y) as [->|]; [|done].
    destruct (IH _ H) as [b ->]. by exists b.
Qed.

Lemma occursb_occurs old s : occursb old s = true <-> occurs old s.
Proof.
  split.
  - induction s as [|c s IH]; cbn [occursb]; intros H.
    + rewrite orb_false_r in H. apply prefix_inv in H as [b ->]. by exists "", b.
    + apply orb_true_iff in H as [H|H].
      * apply prefix_inv in H as [b Hb]. exists "", b. done.
      * destruct (IH H) as (a & b & ->). by exists (String c a), b.
  - intros (a & b & ->). induction a as [|c a IH].
    + change ("" +:+ old +:+ b) with (old +:+ b).
      destruct (old +:+ b) eqn:E; cbn [occursb]; rewrite <- E; by rewrite prefix_app.
    + change (String c a +:+ old +:+ b) with (String c (a +:+ old +:+ b)).
      cbn [occursb]. by rewrite IH, orb_true_r.
Qed.

(** ** [str.replace] *)
Lemma replace_go_skip old new k s :
  replace_go old new k s = replace_go old new 0 (str_drop k s).
Proof.
  revert k. induction s as [|c s IH]; intros [|k]; try reflexivity.
  cbn [replace_go str_drop]. apply IH.
Qed.

Lemma str_drop_app a b : str_drop (String.length a) (a +:+ b) = b.
Proof. induction a as [|x a IH]; simpl; [by destruct b | done]. Qed.

Lemma replace_go_match c old new b :
  replace_go (String c old) new 0 (String c old +:+ b)
  = new +:+ replace_go (String c old) new 0 b.
Proof.
  change (String c old +:+ b) with (String c (old +:+ b)).
  cbn [replace_go].
  change (String c (old +:+ b)) with (String c old +:+ b).
  rewrite prefix_app. f_equal.
  rewrite replace_go_skip. f_equal.
  cbn [String.length]. rewrite Nat.sub_1_r. cbn [Nat.pred].
  apply str_drop_app.
Qed.

Lemma replace_go_miss old new c s :
  String.prefix old (String c s) = false ->
  replace_go old new 0 (String c s) = String c (replace_go old new 0 s).
Proof. intros H. cbn [replace_go]. by rewrite H. Qed.

Lemma leftmost_nil old b : leftmost old "" b.
Proof. intros a' b' _. simpl. lia. Qed.

Lemma leftmost_cons old c a b :
  String.prefix old (String c (a +:+ old +:+ b)) = false ->
  leftmost old a b -> leftmost old (String c a) b.
Proof.
  intros Hp Hl [|c' a'] b' E.
  - change ("" +:+ old +:+ b') with (old +:+ b') in E.
    change (String c a +:+ old +:+ b) with (String c (a +:+ old +:+ b)) in E.
    rewrite E, prefix_app in Hp. discriminate.
  - change (String c a +:+ old +:+ b) with (String c (a +:+ old +:+ b)) in E.
    change (String c' a' +:+ old +:+ b') with (String c' (a' +:+ old +:+ b')) in E.
    injection E as _ E. apply Hl in E. simpl. lia.
Qed.

Lemma leftmost_tail old c a b :
  leftmost old (String c a) b -> leftmost old a b.
Proof.
  intros Hl a' b' E.
  specialize (Hl (String c a') b').
  change (String c a +:+ old +:+ b) with (String c (a +:+ old +:+ b)) in Hl.
  change (String c a' +:+ old +:+ b') with (String c (a' +:+ old +:+ b')) in Hl.
  rewrite E in Hl. specialize (Hl eq_refl). simpl in Hl. lia.
Qed.

Lemma leftmost_head old c a b :
  old <> "" -> leftmost old (String c a) b ->
  String.prefix old (String c (a +:+ old +:+ b)) = false.
Proof.
  intros Hne Hl. destruct (String.prefix old _) eqn:Hp; [|done].
  apply prefix_inv in Hp as [b' Hb'].
  specialize (Hl "" b').
  change (String c a +:+ old +:+ b) with (String c (a +:+ old +:+ b)) in Hl.
  specialize (Hl Hb'). simpl in Hl. lia.
Qed.

Lemma occurs_leftmost old s :
  occurs old s -> exists a b, s = a +:+ old +:+ b /\ leftmost old a b.
Proof.
  induction s as [|c s IH]; intros Ho.
  - destruct Ho as ([|c a] & b & E); [|discriminate].
    exists "", b. split; [done | apply leftmost_nil].
  - destruct (String.prefix old (String c s)) eqn:Hp.
    + apply prefix_inv in Hp as [b Hb]. exists "", b. split; [done | apply leftmost_nil].
    + destruct Ho as ([|c' a] & b & E).
      * change ("" +:+ old +:+ b) with (old +:+ b) in E.
        rewrite E, prefix_app in Hp. discriminate.
      * change (String c' a +:+ old +:+ b) with (String c' (a +:+ old +:+ b)) in E.
        injection E as <- E.
        destruct IH as (a1 & b1 & -> & Hl); [by exists a, b|].
        exists (String c a1), b1. split; [done|].
        by apply leftmost_cons.
Qed.

Lemma replace_go_leftmost old new a b :
  old <> "" -> leftmost old a b ->
  replace_go old new 0 (a +:+ old +:+ b) = a +:+ new +:+ replace_go old new 0 b.
Proof.
  intros Hne. induction a as [|c a IH]; intros Hl.
  - destruct old as [|c old]; [done|]. apply replace_go_match.
  - change (String c a +:+ old +:+ b) with (String c (a +:+ old +:+ b)).
    rewrite replace_go_miss by (by apply leftmost_head).
    rewrite IH by (by eapply leftmost_tail). done.
Qed.

Lemma replace_go_absent old new s :
  ~ occurs old s -> replace_go old new 0 s = s.
Proof.
  induction s as [|c s IH]; intros Hn; [done|].
  rewrite replace_go_miss.
  - rewrite IH; [done|]. intros (a & b & ->). apply Hn. by exists (String c a), b.
  - destruct (String.prefix old (String c s)) eqn:Hp; [|done].
    apply prefix_inv in Hp as [b Hb]. exfalso. apply Hn. by exists "", b.
Qed.

Lemma replace_go_replaced old new s :
  old <> "" -> replaced old new s (replace_go old new 0 s).
Proof.
  intros Hne.
  remember (String.length s) as n eqn:Hn.
  revert s Hn. induction n as [n IH] using lt_wf_ind. intros s ->.
  destruct (occursb old s) eqn:Ho.
  - apply occursb_occurs, occurs_leftmost in Ho as (a & b & -> & Hl).
    rewrite replace_go_leftmost by done.
    apply replaced_first; [done|].
    eapply IH; [|reflexivity].
    rewrite !str_length_app. destruct old; [done|]. simpl. lia.
  - assert (~ occurs old s) as Hno.
    { intros H%occursb_occurs. congruence. }
    rewrite replace_go_absent by done. by apply replaced_none.
Qed.





(** The leftmost occurrence is one place. *)
Lemma leftmost_unique old a b a' b' :
  a +:+ old +:+ b = a' +:+ old +:+ b' ->
  leftmost old a b -> leftmost old a' b' -> a = a' /\ b = b'.
Proof.
  intros E Hl Hl'.
  assert (String.length a = String.length a') as Hlen.
  { specialize (Hl a' b' E). specialize (Hl' a b (eq_sym E)). lia. }
  destruct (str_app_same_length _ _ _ _ E Hlen) as [-> E'].
  split; [done|]. by apply str_app_inv_head in E'.
Qed.

(** A text has one global replacement. *)
Lemma replaced_functional old new s r1 r2 :
  replaced old new s r1 -> replaced old new s r2 -> r1 = r2.
Proof.
  intros H1. revert r2. induction H1 as [s Hn | a b r Hl Hr IH]; intros r2 H2.
  - destruct H2 as [s _ | a b r Hl Hr]; [done|]. destruct Hn. by exists a, b.
  - remember (a +:+ old +:+ b) as s eqn:Hs.
    destruct H2 as [s Hn | a' b' r' Hl' Hr'].
    + destruct Hn. subst s. by exists a, b.
    + destruct (leftmost_unique _ _ _ _ _ Hs Hl' Hl) as [-> ->].
      by rewrite (IH r' Hr').
Qed.

(** X6.  [str.replace] with a non-empty search string is the global
    replacement, leftmost occurrence first and without overlap: its result
    is the one text that the replacement relation gives. *)
Theorem str_replace_is_the_global_replacement c old new s r :
  replaced (String c old) new s r <-> r = str_replace (String c old) new s.
Proof.
  split.
  - intros H. eapply replaced_functional; [exact H|]. by apply replace_go_replaced.
  - intros ->. by apply replace_go_replaced.
Qed.



(** ** The file tree *)



Lemma entry_get_put_eq x n es : entry_get x (entry_put x n es) = Some n.
Proof.
  induction es as [|[y m] es IH]; simpl.
  - by rewrite String.eqb_refl.
  - destruct (String.eqb x y) eqn:E; simpl; rewrite E; [done | apply IH].
Qed.

Lemma entry_get_put_ne x y n es :
  x <> y -> entry_get y (entry_put x n es) = entry_get y es.
Proof.
  intros Hne. induction es as [|[z m] es IH]; simpl.
  - destruct (String.eqb_spec y x); [congruence | done].
  - destruct (String.eqb_spec x z) as [->|]; simpl.
    + destruct (String.eqb_spec y z); [congruence | done].
    + destruct (String.eqb y z); [done | apply IH].
Qed.

Lemma node_at_app fs a b :
  node_at fs (a ++ b) = node_at fs a ≫= (fun n => node_at n b).
Proof.
  revert fs. induction a as [|x a IH]; intros fs; simpl; [done|].
  destruct fs as [|es]; [done|]. destruct (entry_get x es); [apply IH | done].
Qed.

(** Writing a childless node at a place whose parent is a directory and
    that holds no directory changes the view at that place only. *)
Lemma node_set_view fs p x new q :
  (exists es, node_at fs p = Some (Dir es)) ->
  (forall es, node_at fs (p ++ [x]) <> Some (Dir es)) ->
  childless new ->
  view_at (node_set fs (p ++ [x]) new) q =
  if decide (q = p ++ [x]) then Some (view_of new) else view_at fs q.
Proof.
  unfold view_at. revert fs q. induction p as [|y p IH]; intros fs q [es Hp] Hleaf Hnew.
  - simpl in Hp. injection Hp as ->. simpl in *.
    assert (Dir (entry_put x new es) =
            match entry_get x es with
            | Some n => Dir (entry_put x new es)
            | None => Dir (entry_put x new es)
            end) as <- by (by destruct (entry_get x es)).
    destruct q as [|z q]; simpl; [done|].
    destruct (decide (z = x)) as [->|Hzx].
    + rewrite entry_get_put_eq.
      destruct q as [|z' q]; simpl.
      * by rewrite decide_True.
      * rewrite decide_False by congruence.
        assert (match new with
                | File _ => None
                | Dir es0 => match entry_get z' es0 with
                             | Some n => node_at n q
                             | None => None
                             end
                end = None) as ->.
        { destruct new as [|esn]; [done|]. simpl in Hnew. by subst esn. }
        destruct (entry_get x es) as [[c|es']|]; simpl; try done.
        by specialize (Hleaf es').
    + rewrite entry_get_put_ne by done. rewrite decide_False by congruence. done.
  - simpl in Hp. destruct fs as [c|es0]; [done|].
    destruct (entry_get y es0) as [n|] eqn:Hy; [|done].
    change ((y :: p) ++ [x]) with (y :: (p ++ [x])) in *.
    cbn [node_set]. rewrite Hy.
    simpl in Hleaf. rewrite Hy in Hleaf.
    destruct q as [|z q]; cbn [node_at]; [done|].
    destruct (decide (z = y)) as [->|Hzy].
    + rewrite entry_get_put_eq. rewrite Hy.
      rewrite (IH n q) by eauto.
      destruct (decide (q = p ++ [x])) as [->|Hq].
      * by rewrite decide_True.
      * rewrite decide_False by congruence. done.
    + rewrite entry_get_put_ne by done.
      rewrite decide_False by congruence. done.
Qed.




Lemma split_slash_nonempty p : split_slash p <> [].
Proof.
  destruct p as [|c p]; simpl; [done|].
  destruct (is_slash c); [done|]. by destruct (split_slash p).
Qed.

Lemma node_at_parent fs p x n :
  node_at fs (p ++ [x]) = Some n -> exists es, node_at fs p = Some (Dir es).
Proof.
  rewrite node_at_app. destruct (node_at fs p) as [[c|es]|]; simpl; try done. eauto.
Qed.

Lemma stat_inr fs p n :
  stat fs p = inr n <->
  exists cur, resolve fs p = inr cur /\ node_at fs cur = Some n.
Proof.
  unfold stat. split.
  - destruct (resolve fs p) as [e|cur]; [done|].
    destruct (node_at fs cur) eqn:E; [|done]. intros [= ->]. eauto.
  - intros (cur & -> & ->). done.
Qed.

Lemma view_at_file fs q c : view_at fs q = Some (VFile c) <-> node_at fs q = Some (File c).
Proof.
  unfold view_at. destruct (node_at fs q) as [[|]|]; simpl; split; congruence.
Qed.

Lemma run_bind {A B} (m : M A) (k : A -> M B) fs a fs' :
  m fs = (Returned a, fs') -> (x <- m ;; k x) fs = k a fs'.
Proof. unfold bind. by intros ->. Qed.

Lemma run_bind_raised {A B} (m : M A) (k : A -> M B) fs e fs' :
  m fs = (Raised e, fs') -> (x <- m ;; k x) fs = (Raised e, fs').
Proof. unfold bind. by intros ->. Qed.

Lemma run_try {A} (m : M A) h fs a fs' :
  m fs = (Returned a, fs') -> try_except m h fs = (Returned a, fs').
Proof. unfold try_except. by intros ->. Qed.

Lemma run_try_raised {A} (m : M A) h fs e fs' :
  m fs = (Raised e, fs') -> try_except m h fs = h e fs'.
Proof. unfold try_except. by intros ->. Qed.



Lemma os_path_exists_stat fs p n :
  stat fs p = inr n -> os_path_exists p fs = (Returned true, fs).
Proof. unfold os_path_exists. by intros ->. Qed.

Lemma os_path_exists_missing fs p e :
  stat fs p = inl e -> os_path_exists p fs = (Returned false, fs).
Proof. unfold os_path_exists. by intros ->. Qed.


Lemma open_read_dir fs p es :
  stat fs p = inr (Dir es) -> open_read p fs = (Raised (OSError EISDIR p), fs).
Proof. unfold open_read. by intros ->. Qed.



Tactic Notation "mstep" tactic3(tac) := erewrite run_bind; [ | solve [tac] ].



(** ** Listing a directory *)











Lemma wf_tree_entry es x n :
  forallb (fun e => wf_tree (snd e)) es = true ->
  entry_get x es = Some n -> wf_tree n = true.
Proof.
  induction es as [|[y m] es IH]; [done|]. cbn [forallb entry_get snd].
  intros [Hm Hes]%andb_true_iff. destruct (String.eqb x y); [congruence | by apply IH].
Qed.




(** ** Writing a file *)


Lemma view_at_dir fs q : view_at fs q = Some VDir <-> exists es, node_at fs q = Some (Dir es).
Proof.
  unfold view_at. destruct (node_at fs q) as [[|es]|]; simpl; split; try congruence; eauto.
  - intros [es H]. congruence.
  - intros [es' H]. congruence.
Qed.

Lemma kind_at_dir fs q : kind_at fs q = Some true <-> exists es, node_at fs q = Some (Dir es).
Proof.
  unfold kind_at. destruct (node_at fs q) as [[|es]|]; simpl; split; try congruence; eauto.
  - intros [es H]. congruence.
  - intros [es' H]. congruence.
Qed.

Lemma kind_at_view fs q : kind_at fs q = (fun v => match v with VDir => true | VFile _ => false end) <$> view_at fs q.
Proof. unfold kind_at, view_at. by destruct (node_at fs q) as [[|]|]. Qed.

(** Resolution follows directories only: it goes the same way in a tree
    that has all the directories of this one. *)
Lemma walk_mono fs fs' cur comps c :
  (forall q, kind_at fs q = Some true -> kind_at fs' q = Some true) ->
  walk fs cur comps = inr c -> walk fs' cur comps = inr c.
Proof.
  intros H. revert cur. induction comps as [|x comps IH]; intros cur; cbn [walk]; [done|].
  destruct (node_at fs cur) as [[|es]|] eqn:Hn; try done.
  assert (kind_at fs' cur = Some true) as [es' ->]%kind_at_dir.
  { apply H. apply kind_at_dir. eauto. }
  destruct (is_dot x); [apply IH|]. destruct (is_dotdot x); apply IH.
Qed.

Lemma removelast_dir fs cur es :
  node_at fs cur = Some (Dir es) ->
  exists es', node_at fs (removelast cur) = Some (Dir es').
Proof.
  destruct cur as [|x cur _] using rev_ind; [eauto|].
  rewrite removelast_last. apply node_at_parent.
Qed.

(** A resolved place is a directory or lies in one. *)
Lemma walk_place fs cur comps c :
  walk fs cur comps = inr c -> comps <> [] ->
  (exists es, node_at fs c = Some (Dir es)) \/
  (exists q x, c = q ++ [x] /\ exists es, node_at fs q = Some (Dir es)).
Proof.
  revert cur. induction comps as [|x comps IH]; intros cur Hw Hne; [done|].
  clear Hne. cbn [walk] in Hw.
  destruct (node_at fs cur) as [[|es]|] eqn:Hn; try done.
  destruct comps as [|y comps].
  - destruct (is_dot x); [|destruct (is_dotdot x)]; cbn in Hw; injection Hw as <-.
    + left. eauto.
    + left. by eapply removelast_dir.
    + right. exists cur, x. eauto.
  - destruct (is_dot x); [|destruct (is_dotdot x)]; by eapply IH.
Qed.

(** What a successful [open(p, 'w')] and [write] leave. *)
Lemma open_write_returned fs p content fs' :
  open_write p content fs = (Returned tt, fs') ->
  exists cur,
    resolve fs p = inr cur /\
    stat fs' p = inr (File content) /\
    (forall q, q <> cur -> view_at fs' q = view_at fs q).
Proof.
  unfold open_write. destruct (resolve fs p) as [e|cur] eqn:Hr; [done|].
  intros Hw. exists cur. split; [done|].
  assert (forall es, node_at fs cur <> Some (Dir es)) as Hleaf.
  { intros es E. by rewrite E in Hw. }
  assert (fs' = node_set fs cur (File content)) as ->.
  { destruct (node_at fs cur) as [[|]|]; congruence. }
  clear Hw.
  assert (exists q x, cur = q ++ [x] /\ exists es, node_at fs q = Some (Dir es))
    as (q0 & x & -> & Hpar).
  { unfold resolve in Hr. destruct (String.eqb p ""); [done|].
    destruct (walk_place _ _ _ _ Hr (split_slash_nonempty p)) as [[es Hd]|H]; [|done].
    by destruct (Hleaf es). }
  assert (forall q, view_at (node_set fs (q0 ++ [x]) (File content)) q =
                    if decide (q = q0 ++ [x]) then Some (VFile content) else view_at fs q) as Hv.
  { intros q. by apply (node_set_view fs q0 x (File content) q). }
  split.
  - apply stat_inr. exists (q0 ++ [x]). split.
    + unfold resolve in *. destruct (String.eqb p ""); [done|].
      eapply walk_mono; [|exact Hr].
      intros q Hq. destruct (decide (q = q0 ++ [x])) as [->|Hne].
      * apply kind_at_dir in Hq as [es Hq]. by destruct (Hleaf es).
      * rewrite kind_at_view in *. rewrite Hv. by rewrite decide_False.
    + apply view_at_file. rewrite Hv. by rewrite decide_True.
  - intros q Hq. rewrite Hv. by rewrite decide_False.
Qed.


(** ** Paths made of names *)


(** Paths made of names *)















(** ** Creating directories and files *)










(** ** Failures of the tools *)


Lemma tool_boundary_returns e fs :
  exists r, tool_boundary e fs = (Returned r, fs).
Proof. destruct e; eexists; reflexivity. Qed.

Lemma try_tool_boundary_returns (body : M tool_result) fs :
  exists r fs', try_except body tool_boundary fs = (Returned r, fs').
Proof.
  unfold try_except. destruct (body fs) as [[r|e] fs']; [by eauto|].
  destruct (tool_boundary_returns e fs') as [r ->]. eauto.
Qed.

(** The file system calls that only look leave the files as they are. *)
Lemma os_path_exists_pure p fs : exists b, os_path_exists p fs = (Returned b, fs).
Proof. unfold os_path_exists. eauto. Qed.

Lemma os_path_isdir_pure p fs : exists b, os_path_isdir p fs = (Returned b, fs).
Proof. unfold os_path_isdir. eauto. Qed.

Lemma open_read_pure p fs : exists o, open_read p fs = (o, fs).
Proof. unfold open_read. destruct (stat fs p) as [e|[c|es]]; eauto. Qed.

Lemma os_listdir_pure p fs : exists o, os_listdir p fs = (o, fs).
Proof. unfold os_listdir. destruct (stat fs p) as [e|[c|es]]; eauto. Qed.

Lemma list_items_pure dir_path items files fs :
  exists l, list_items dir_path items files fs = (Returned l, fs).
Proof.
  revert files. induction items as [|item items IH]; intros files; cbn [list_items].
  - eexists. reflexivity.
  - destruct (os_path_isdir_pure (os_path_join dir_path item) fs) as [b Hb].
    erewrite run_bind; [|exact Hb]. apply IH.
Qed.

Lemma open_write_raised p content fs e fs' :
  open_write p content fs = (Raised e, fs') -> fs' = fs.
Proof.
  unfold open_write. destruct (resolve fs p) as [e'|cur]; [by intros [= _ <-]|].
  destruct (node_at fs cur) as [[c|es]|]; by intros [= <-] || intros [=].
Qed.



Lemma dict_get_pure v key dflt fs : exists o, dict_get v key dflt fs = (o, fs).
Proof. destruct v; eexists; reflexivity. Qed.

Lemma list_files_parsed_clean v fs :
  clean_failure fs (list_files_parsed v fs) /\ snd (list_files_parsed v fs) = fs.
Proof.
  unfold list_files_parsed, bind.
  destruct (dict_get_pure v "path" "." fs) as [[p|e] ->]; [|done].
  destruct (os_path_exists_pure p fs) as [b ->]. destruct b; cbn [negb]; [|done].
  destruct (os_path_isdir_pure p fs) as [b ->]. destruct b; cbn [negb]; [|done].
  unfold try_except, bind.
  destruct (os_listdir_pure p fs) as [[items|e] ->].
  - destruct (list_items_pure p items [] fs) as [l ->]. done.
  - destruct e as [| | | | | |[] f]; done.
Qed.



(** ** Well-formed trees *)


Lemma split_slash_parts p : Forall (fun x => has_slash x = false) (split_slash p).
Proof.
  induction p as [|c p IH]; cbn [split_slash].
  - by constructor.
  - destruct (is_slash c) eqn:Hc; [by constructor|].
    destruct (split_slash p) as [|w ws]; [by constructor; [cbn; rewrite Hc|]|].
    inversion IH as [|? ? Hw Hws]; subst. constructor; [|done].
    cbn [has_slash]. by rewrite Hc, Hw.
Qed.

Lemma Forall_removelast {A} (P : A -> Prop) (l : list A) :
  Forall P l -> Forall P (removelast l).
Proof.
  destruct l as [|x l _] using rev_ind; [done|].
  rewrite removelast_last. by intros [? _]%Forall_app.
Qed.

(** The places that resolution reaches have proper names. *)
Lemma walk_proper fs cur comps c :
  walk fs cur comps = inr c ->
  Forall (fun x => proper_name x = true) cur ->
  Forall (fun x => has_slash x = false) comps ->
  Forall (fun x => proper_name x = true) c.
Proof.
  revert cur. induction comps as [|x comps IH]; intros cur Hw Hcur Hcomps; cbn [walk] in Hw.
  - by injection Hw as <-.
  - inversion Hcomps as [|? ? Hx Hrest]; subst.
    destruct (node_at fs cur) as [[|es]|]; try done.
    destruct (is_dot x) eqn:Hd; [by eapply IH|].
    destruct (is_dotdot x) eqn:Hdd.
    + eapply IH; [done | by apply Forall_removelast | done].
    + eapply IH; [done | | done]. apply Forall_app. split; [done|].
      constructor; [|done]. unfold proper_name. by rewrite Hx, Hd, Hdd.
Qed.

Lemma resolve_proper fs p cur :
  resolve fs p = inr cur -> Forall (fun x => proper_name x = true) cur.
Proof.
  unfold resolve. destruct (String.eqb p ""); [done|]. intros Hw.
  eapply walk_proper; [done | done | apply split_slash_parts].
Qed.

Lemma map_fst_entry_put x n es :
  map fst (entry_put x n es) =
  if existsb (String.eqb x) (map fst es) then map fst es else map fst es ++ [x].
Proof.
  induction es as [|[y m] es IH]; [done|]. cbn [entry_put map fst existsb].
  destruct (String.eqb x y); cbn [orb map fst]; [done|].
  rewrite IH. by destruct (existsb _ _).
Qed.

Lemma distinct_names_snoc names x :
  distinct_names names = true -> existsb (String.eqb x) names = false ->
  distinct_names (names ++ [x]) = true.
Proof.
  induction names as [|y names IH]; [done|]. cbn [distinct_names existsb app].
  intros [Hy Hd]%andb_true_iff [Hxy Hx]%orb_false_iff.
  rewrite IH by done. rewrite andb_true_r.
  rewrite existsb_app. cbn [existsb]. apply negb_true_iff in Hy. rewrite Hy.
  by rewrite String.eqb_sym, Hxy.
Qed.

Lemma wf_entries_put x n es :
  proper_name x = true -> wf_entries es = true -> wf_entries (entry_put x n es) = true.
Proof.
  unfold wf_entries. intros Hx [Hp Hd]%andb_true_iff.
  rewrite map_fst_entry_put.
  destruct (existsb (String.eqb x) (map fst es)) eqn:Hin; [by rewrite Hp, Hd|].
  rewrite forallb_app, Hp. cbn [forallb]. rewrite Hx.
  by rewrite distinct_names_snoc.
Qed.

Lemma wf_subtrees_put x n es :
  wf_tree n = true ->
  forallb (fun e => wf_tree (snd e)) es = true ->
  forallb (fun e => wf_tree (snd e)) (entry_put x n es) = true.
Proof.
  intros Hn. induction es as [|[y m] es IH]; cbn [entry_put forallb snd].
  - by rewrite Hn.
  - intros [Hm Hes]%andb_true_iff.
    destruct (String.eqb x y); cbn [forallb snd]; [by rewrite Hn, Hes|].
    by rewrite Hm, IH.
Qed.

(** Putting a well-formed node at a place of proper names keeps the tree
    well-formed. *)
Lemma node_set_wf fs names new :
  wf_tree fs = true ->
  Forall (fun x => proper_name x = true) names ->
  wf_tree new = true ->
  wf_tree (node_set fs names new) = true.
Proof.
  intros Hfs Hnames Hnew. revert fs Hfs.
  induction Hnames as [|x rest Hx Hrest IH]; intros fs Hfs; [done|].
  cbn [node_set]. destruct fs as [c|es]; [done|].
  cbn [wf_tree] in Hfs. apply andb_true_iff in Hfs as [Hes Hsub].
  destruct (entry_get x es) as [n|] eqn:Hget.
  - cbn [wf_tree]. rewrite wf_entries_put by done.
    apply wf_subtrees_put; [|done]. apply IH. by eapply wf_tree_entry.
  - destruct rest; [|by cbn [wf_tree]; rewrite Hes].
    cbn [wf_tree]. rewrite wf_entries_put by done. by apply wf_subtrees_put.
Qed.

Lemma open_write_wf p content fs :
  wf_tree fs = true -> wf_tree (snd (open_write p content fs)) = true.
Proof.
  intros Hfs. unfold open_write.
  destruct (resolve fs p) as [e|cur] eqn:Hr; [done|].
  apply resolve_proper in Hr.
  destruct (node_at fs cur) as [[c|es]|]; cbn [snd]; try done; by apply node_set_wf.
Qed.

Lemma makedirs_from_wf fs cur seen comps :
  wf_tree fs = true ->
  Forall (fun x => proper_name x = true) cur ->
  Forall (fun x => has_slash x = false) comps ->
  wf_tree (snd (makedirs_from fs cur seen comps)) = true.
Proof.
  intros Hfs Hcur Hcomps. revert fs cur seen Hfs Hcur.
  induction Hcomps as [|c rest Hc Hrest IH]; intros fs cur seen Hfs Hcur; [done|].
  cbn [makedirs_from].
  destruct (is_dot c) eqn:Hd; [by apply IH|].
  destruct (is_dotdot c) eqn:Hdd; [apply IH; [done | by apply Forall_removelast]|].
  assert (Forall (fun x => proper_name x = true) (cur ++ [c])) as Hnext.
  { apply Forall_app. split; [done|]. constructor; [|done].
    unfold proper_name. by rewrite Hc, Hd, Hdd. }
  destruct (node_at fs (cur ++ [c])) as [[content|es]|].
  - by destruct rest.
  - by apply IH.
  - apply IH; [|done]. by apply node_set_wf.
Qed.

Lemma os_makedirs_wf p fs :
  wf_tree fs = true -> wf_tree (snd (os_makedirs p fs)) = true.
Proof.
  intros Hfs. unfold os_makedirs. destruct (String.eqb p ""); [done|].
  destruct fs as [c|es]; [done|].
  apply makedirs_from_wf; [done | done | apply split_slash_parts].
Qed.

Lemma create_new_file_wf p content fs :
  wf_tree fs = true -> wf_tree (snd (create_new_file p content fs)) = true.
Proof.
  intros Hfs. unfold create_new_file, try_except, bind. cbv zeta.
  match goal with
  | |- context [(if ?b then os_makedirs ?q else ret tt) fs] =>
      assert (wf_tree (snd ((if b then os_makedirs q else ret tt) fs)) = true) as H1
        by (destruct b; [by apply os_makedirs_wf | done]);
      destruct ((if b then os_makedirs q else ret tt) fs) as [[[]|e1] fs1]
  end; cbn [snd] in H1; [|done].
  pose proof (open_write_wf p content fs1 H1) as H2.
  by destruct (open_write p content fs1) as [[[]|e2] fs2].
Qed.

Lemma edit_file_parsed_wf v fs :
  wf_tree fs = true -> wf_tree (snd (edit_file_parsed v fs)) = true.
Proof.
  intros Hfs. unfold edit_file_parsed, bind.
  destruct (dict_get_pure v "path" "" fs) as [[p|e] ->]; [|done].
  destruct (dict_get_pure v "old_str" "" fs) as [[o|e] ->]; [|done].
  destruct (dict_get_pure v "new_str" "" fs) as [[n|e] ->]; [|done].
  destruct (_ || _); [done|].
  destruct (os_path_exists_pure p fs) as [b ->]. destruct b; cbn [negb].
  - unfold attempt, try_except, bind.
    destruct (open_read_pure p fs) as [[c|e] ->]; [|done]. cbn [ret].
    destruct (_ && _); [done|].
    pose proof (open_write_wf p (str_replace o n c) fs Hfs) as Hw.
    by destruct (open_write p (str_replace o n c) fs) as [[[]|e] fs'].
  - destruct (String.eqb o ""); [|done].
    pose proof (create_new_file_wf p n fs Hfs) as Hc.
    by destruct (create_new_file p n fs) as [[r|e] fs'].
Qed.

Lemma lacks_path_pure v fs : exists o, lacks_path v fs = (o, fs).
Proof. destruct v; eexists; reflexivity. Qed.

Lemma dict_item_path_pure v fs : exists o, dict_item_path v fs = (o, fs).
Proof.
  destruct v as [| d | | |]; try (eexists; reflexivity).
  cbn. destruct (d !! "path"); eexists; reflexivity.
Qed.

Lemma read_file_parsed_pure v fs : snd (read_file_parsed v fs) = fs.
Proof.
  unfold read_file_parsed, bind.
  destruct (lacks_path_pure v fs) as [[[]|e] ->]; try done.
  destruct (dict_item_path_pure v fs) as [[p|e] ->]; [|done].
  destruct (os_path_exists_pure p fs) as [b ->]. destruct b; cbn; [|done].
  by destruct (open_read_pure p fs) as [[c|e] ->].
Qed.

(** ** Absent fields *)

Lemma field_insert_absent (d : gmap string string) key key' :
  d !! key = None -> field (<[key := ""]> d) key' = field d key'.
Proof.
  intros Hnone. unfold field. destruct (decide (key = key')) as [<-|Hne].
  - by rewrite lookup_insert_eq, Hnone.
  - by rewrite lookup_insert_ne.
Qed.

(** [edit_file] looks at the three fields only. *)
Lemma edit_file_parsed_fields d d' fs :
  field d "path" = field d' "path" ->
  field d "old_str" = field d' "old_str" ->
  field d "new_str" = field d' "new_str" ->
  edit_file_parsed (PyDict d) fs = edit_file_parsed (PyDict d') fs.
Proof.
  intros H1 H2 H3. unfold edit_file_parsed.
  do 3 (erewrite run_bind; [|reflexivity]).
  fold (field d "path") (field d "old_str") (field d "new_str").
  rewrite H1, H2, H3. symmetry.
  do 3 (erewrite run_bind; [|reflexivity]). reflexivity.
Qed.

(** ** What [edit_file] leaves of the files *)

Lemma keeps_files_refl cur fs : keeps_files cur fs fs.
Proof. intros q v H. by left. Qed.

Lemma keeps_files_kind cur fs fs' :
  keeps_files cur fs fs' ->
  forall q k, kind_at fs q = Some k -> kind_at fs' q = Some k.
Proof.
  intros Hk q k. rewrite !kind_at_view.
  destruct (view_at fs q) as [v|] eqn:Hv; [|done].
  destruct (Hk q v Hv) as [-> | (_ & c & c' & -> & ->)]; done.
Qed.

(** [os.makedirs] adds directories and changes nothing else. *)
Lemma makedirs_from_views fs cur seen comps :
  (exists es, node_at fs cur = Some (Dir es)) ->
  forall q v, view_at fs q = Some v ->
              view_at (snd (makedirs_from fs cur seen comps)) q = Some v.
Proof.
  revert fs cur seen. induction comps as [|c rest IH]; intros fs cur seen Hcur q v Hq; [done|].
  cbn [makedirs_from].
  destruct (is_dot c); [by apply IH|].
  destruct (is_dotdot c).
  { apply IH; [|done]. destruct Hcur as [es Hcur]. by eapply removelast_dir. }
  destruct (node_at fs (cur ++ [c])) as [[content|es]|] eqn:Hn.
  - by destruct rest.
  - apply IH; [eauto | done].
  - assert (forall q', view_at (node_set fs (cur ++ [c]) (Dir [])) q' =
                       if decide (q' = cur ++ [c]) then Some VDir else view_at fs q') as Hv.
    { intros q'. apply (node_set_view fs cur c (Dir []) q'); [done| |done].
      intros es. by rewrite Hn. }
    apply IH.
    + apply view_at_dir. rewrite Hv. by rewrite decide_True.
    + rewrite Hv. destruct (decide (q = cur ++ [c])) as [->|]; [|done].
      unfold view_at in Hq. by rewrite Hn in Hq.
Qed.

Lemma os_makedirs_views p fs q v :
  view_at fs q = Some v -> view_at (snd (os_makedirs p fs)) q = Some v.
Proof.
  intros Hq. unfold os_makedirs. destruct (String.eqb p ""); [done|].
  destruct fs as [c|es]; [done|].
  apply makedirs_from_views; [|done]. by exists es.
Qed.

Lemma open_write_views p content fs :
  exists cur, keeps_files cur fs (snd (open_write p content fs)).
Proof.
  destruct (open_write p content fs) as [[[]|e] fs'] eqn:Hw; cbn [snd].
  - destruct (open_write_returned _ _ _ _ Hw) as (cur & Hr & Hs & Hframe).
    exists cur. intros q v Hq. destruct (decide (q = cur)) as [->|Hne].
    + right. split; [done|].
      assert (view_at fs' cur = Some (VFile content)) as Hafter.
      { unfold open_write in Hw. rewrite Hr in Hw.
        apply stat_inr in Hs as (cur' & Hr' & Hn').
        assert (cur' = cur) as ->; [|by apply view_at_file].
        unfold resolve in *. destruct (String.eqb p ""); [done|].
        assert (walk fs' [] (split_slash p) = inr cur); [|congruence].
        eapply walk_mono; [|exact Hr].
        intros q' Hq'. destruct (decide (q' = cur)) as [->|Hne'].
        - apply kind_at_dir in Hq' as [es Hq']. by rewrite Hq' in Hw.
        - rewrite kind_at_view in *. by rewrite Hframe. }
      unfold open_write in Hw. rewrite Hr in Hw.
      unfold view_at in Hq.
      destruct (node_at fs cur) as [[c|es]|]; [|done|done].
      injection Hq as <-. eauto.
    + left. by rewrite Hframe.
  - apply open_write_raised in Hw as ->. exists []. apply keeps_files_refl.
Qed.

Lemma create_new_file_views p content fs :
  exists cur, keeps_files cur fs (snd (create_new_file p content fs)).
Proof.
  unfold create_new_file, try_except, bind. cbv zeta.
  match goal with
  | |- context [(if ?b then os_makedirs ?q else ret tt) fs] =>
      assert (forall q' v, view_at fs q' = Some v ->
                view_at (snd ((if b then os_makedirs q else ret tt) fs)) q' = Some v) as H1
        by (destruct b; [intros; by apply os_makedirs_views | done]);
      destruct ((if b then os_makedirs q else ret tt) fs) as [[[]|e1] fs1]
  end; cbn [snd] in H1.
  - destruct (open_write_views p content fs1) as [cur Hcur]. exists cur.
    assert (keeps_files cur fs (snd (open_write p content fs1))) as Hk.
    { intros q v Hq. by apply Hcur, H1. }
    by destruct (open_write p content fs1) as [[[]|e2] fs2].
  - exists []. intros q v Hq. left. by apply H1.
Qed.

Lemma edit_file_parsed_views v fs :
  exists cur, keeps_files cur fs (snd (edit_file_parsed v fs)).
Proof.
  assert (exists cur : list string, keeps_files cur fs fs) as Hsame
    by (exists []; apply keeps_files_refl).
  unfold edit_file_parsed, bind.
  destruct (dict_get_pure v "path" "" fs) as [[p|e] ->]; [|done].
  destruct (dict_get_pure v "old_str" "" fs) as [[o|e] ->]; [|done].
  destruct (dict_get_pure v "new_str" "" fs) as [[n|e] ->]; [|done].
  destruct (_ || _); [done|].
  destruct (os_path_exists_pure p fs) as [b ->]. destruct b; cbn [negb].
  - unfold attempt, try_except, bind.
    destruct (open_read_pure p fs) as [[c|e] ->]; [|done]. cbn [ret].
    destruct (_ && _); [done|].
    destruct (open_write_views p (str_replace o n c) fs) as [cur Hw]. exists cur.
    by destruct (open_write p (str_replace o n c) fs) as [[[]|e] fs'].
  - destruct (String.eqb o ""); [|done].
    destruct (create_new_file_views p n fs) as [cur Hc]. exists cur.
    by destruct (create_new_file p n fs) as [[r|e] fs'].
Qed.

(** ** The tools *)

Section ToolProperties.

Variable json_loads : string -> string + pyobj.
Variable bytes_decode : list Byte.byte -> string + string.

#[local] Abbreviation read_file := (read_file json_loads bytes_decode).
#[local] Abbreviation list_files := (list_files json_loads bytes_decode).
#[local] Abbreviation edit_file := (edit_file json_loads bytes_decode).
#[local] Abbreviation decodes_to := (decodes_to json_loads bytes_decode).

(** Of an input that decodes, a tool keeps the decoded value only. *)
Lemma read_file_decoded input v fs :
  decodes_to input v ->
  read_file input fs = try_except (read_file_parsed v) tool_boundary fs.
Proof.
  unfold read_file, loads, decode, try_except, bind, ret.
  destruct 1 as [d | s v Hs | b s v Hb Hs]; by rewrite ?Hb, ?Hs.
Qed.

Lemma list_files_decoded input v fs :
  decodes_to input v ->
  list_files input fs = try_except (list_files_parsed v) tool_boundary fs.
Proof.
  unfold list_files, loads, decode, try_except, bind, ret.
  destruct 1 as [d | s v Hs | b s v Hb Hs]; by rewrite ?Hb, ?Hs.
Qed.

Lemma edit_file_decoded input v fs :
  decodes_to input v ->
  edit_file input fs = try_except (edit_file_parsed v) tool_boundary fs.
Proof.
  unfold edit_file, loads, decode, try_except, bind, ret.
  destruct 1 as [d | s v Hs | b s v Hb Hs]; by rewrite ?Hb, ?Hs.
Qed.

Lemma edit_file_returns input d fs r fs' :
  decodes_to input (PyDict d) ->
  edit_file_parsed (PyDict d) fs = (Returned r, fs') ->
  edit_file input fs = (Returned r, fs').
Proof. intros Hd H. rewrite (edit_file_decoded _ _ _ Hd). by apply run_try. Qed.

(** The validation of [edit_file]. *)
Lemma edit_file_parsed_invalid d fs :
  field d "path" = "" \/ field d "old_str" = field d "new_str" ->
  edit_file_parsed (PyDict d) fs =
  (Returned ("", Some (Exception "Invalid input parameters")), fs).
Proof.
  intros H. unfold edit_file_parsed.
  do 3 (mstep reflexivity).
  fold (field d "path") (field d "old_str") (field d "new_str").
  destruct H as [-> | ->]; [done|].
  by rewrite String.eqb_refl, orb_true_r.
Qed.





(** C4.  With an empty path, or with [old_str] equal to [new_str],
    [edit_file] fails with "Invalid input parameters" and leaves the files
    as they are, whether the file exists or not. *)
Theorem edit_file_rejects_invalid_input input d fs :
  decodes_to input (PyDict d) ->
  field d "path" = "" \/ field d "old_str" = field d "new_str" ->
  edit_file input fs =
  (Returned ("", Some (Exception "Invalid input parameters")), fs).
Proof.
  intros Hdec H. apply (edit_file_returns _ d); [done|].
  by apply edit_file_parsed_invalid.
Qed.



(** C10.  On a path that names a directory, [read_file] passes its
    existence check, fails to open the directory, and returns an empty
    result with the error of the open, which is not the "File not found"
    error of a missing path. *)
Theorem read_file_directory input d fs path es :
  decodes_to input (PyDict d) ->
  d !! "path" = Some path ->
  stat fs path = inr (Dir es) ->
  os_path_exists path fs = (Returned true, fs) /\
  open_read path fs = (Raised (OSError EISDIR path), fs) /\
  read_file input fs = (Returned ("", Some (OSError EISDIR path)), fs) /\
  OSError EISDIR path <> Exception ("File not found: " +:+ path).
Proof.
  intros Hdec Hd Hstat.
  split; [by eapply os_path_exists_stat|].
  split; [by eapply open_read_dir|].
  split; [|done].
  rewrite (read_file_decoded _ _ _ Hdec).
  assert (read_file_parsed (PyDict d) fs = (Raised (OSError EISDIR path), fs)) as H.
  { unfold read_file_parsed.
    mstep (unfold lacks_path, ret; rewrite Hd; reflexivity).
    rewrite bool_decide_eq_false_2 by done.
    mstep (unfold dict_item_path, ret; rewrite Hd; reflexivity).
    mstep (by eapply os_path_exists_stat). cbn [negb].
    by apply run_bind_raised, (open_read_dir _ _ es). }
  by rewrite (run_try_raised _ _ _ _ _ H).
Qed.

(** C7.  Each tool gives the same result and the same files for an input
    given as JSON text, as the dictionary the text decodes to, or as bytes
    that decode to the text; an input of any other type is refused with
    "Unknown input format". *)
Theorem tools_accept_three_representations tool :
  In tool [read_file; list_files; edit_file] ->
  (forall s d fs, json_loads s = inr (PyDict d) ->
     tool (PyStr s) fs = tool (PyDict d) fs) /\
  (forall b s fs, bytes_decode b = inr s ->
     tool (PyBytes b) fs = tool (PyStr s) fs) /\
  (forall input fs,
     (forall s, input <> PyStr s) -> (forall d, input <> PyDict d) ->
     (forall b, input <> PyBytes b) ->
     tool input fs =
     (Returned ("", Some (Exception ("Unknown input format: " +:+ type_repr input))), fs)).
Proof.
  intros Htool.
  assert (tool = read_file \/ tool = list_files \/ tool = edit_file) as Hcases.
  { simpl in Htool. intuition auto. }
  clear Htool. split; [|split].
  - intros s d fs Hs.
    destruct Hcases as [-> | [-> | ->]];
      unfold read_file, list_files, edit_file, loads, try_except, bind, ret;
      by rewrite Hs.
  - intros b s fs Hb.
    destruct Hcases as [-> | [-> | ->]];
      unfold read_file, list_files, edit_file, decode, try_except, bind, ret;
      by rewrite Hb.
  - intros input fs Hs Hd Hb.
    destruct input as [s | d | b | items | t];
      [by destruct (Hs s) | by destruct (Hd d) | by destruct (Hb b) | |];
      by destruct Hcases as [-> | [-> | ->]].
Qed.



(** X1.  The three tools always return a pair: no exception leaves them. *)
Theorem tools_never_raise :
  (forall input fs, exists result fs', read_file input fs = (Returned result, fs')) /\
  (forall input fs, exists result fs', list_files input fs = (Returned result, fs')) /\
  (forall input fs, exists result fs', edit_file input fs = (Returned result, fs')).
Proof. repeat split; intros input fs; apply try_tool_boundary_returns. Qed.




(** What holds of the files before a call, and after the part of a tool
    that follows the decoding, holds after the tool. *)
Lemma decoding_state (P : node -> Prop) (parsed : pyobj -> M tool_result) input fs :
  P fs -> (forall v, P (snd (parsed v fs))) ->
  P (snd (try_except
            match input with
            | PyStr s => input_dict <- loads json_loads s ;; parsed input_dict
            | PyDict _ => parsed input
            | PyBytes b =>
                s <- decode bytes_decode b ;;
                input_dict <- loads json_loads s ;; parsed input_dict
            | _ => ret ("", Some (Exception ("Unknown input format: " +:+ type_repr input)))
            end
            tool_boundary fs)).
Proof.
  intros Hfs Hparsed.
  assert (forall v, P (snd (try_except (parsed v) tool_boundary fs))) as Htry.
  { intros v. specialize (Hparsed v). unfold try_except.
    destruct (parsed v fs) as [[r|e] fs']; [done|]. by destruct e. }
  unfold loads, decode.
  destruct input as [s | d | b | items | t].
  - destruct (json_loads s) as [msg|v]; [exact Hfs | exact (Htry v)].
  - exact (Htry (PyDict d)).
  - destruct (bytes_decode b) as [msg|s]; [exact Hfs|].
    destruct (json_loads s) as [msg|v] eqn:Hs.
    + unfold try_except, bind, ret. rewrite Hs. exact Hfs.
    + specialize (Htry v). unfold try_except, bind, ret in *. rewrite Hs. exact Htry.
  - exact Hfs.
  - exact Hfs.
Qed.

(** X4.  [read_file] and [list_files] leave the files as they are. *)
Theorem read_file_and_list_files_change_nothing :
  (forall input fs, snd (read_file input fs) = fs) /\
  (forall input fs, snd (list_files input fs) = fs).
Proof.
  split; intros input fs.
  - apply (decoding_state (fun fs' => fs' = fs)); [done|].
    intros v. apply read_file_parsed_pure.
  - apply (decoding_state (fun fs' => fs' = fs)); [done|].
    intros v. apply list_files_parsed_clean.
Qed.

(** X5.  The tools keep a well-formed tree well-formed: whatever
    [edit_file] creates has a proper name of its own in its directory. *)
Theorem tools_keep_tree_well_formed input fs :
  wf_tree fs = true ->
  wf_tree (snd (read_file input fs)) = true /\
  wf_tree (snd (list_files input fs)) = true /\
  wf_tree (snd (edit_file input fs)) = true.
Proof.
  intros Hfs. repeat split.
  - apply (decoding_state (fun fs' => wf_tree fs' = true)); [done|].
    intros v. by rewrite read_file_parsed_pure.
  - apply (decoding_state (fun fs' => wf_tree fs' = true)); [done|].
    intros v. by rewrite (proj2 (list_files_parsed_clean v fs)).
  - apply (decoding_state (fun fs' => wf_tree fs' = true)); [done|].
    intros v. by apply edit_file_parsed_wf.
Qed.




(** The tools and the files, for the agent. *)
Lemma read_file_pure input fs : snd (read_file input fs) = fs.
Proof.
  apply (decoding_state (fun fs' => fs' = fs)); [done|].
  intros v. apply read_file_parsed_pure.
Qed.

Lemma list_files_pure input fs : snd (list_files input fs) = fs.
Proof.
  apply (decoding_state (fun fs' => fs' = fs)); [done|].
  intros v. apply list_files_parsed_clean.
Qed.

Lemma edit_file_wf input fs :
  wf_tree fs = true -> wf_tree (snd (edit_file input fs)) = true.
Proof.
  intros Hfs.
  apply (decoding_state (fun fs' => wf_tree fs' = true)); [done|].
  intros v. by apply edit_file_parsed_wf.
Qed.

Lemma edit_file_keeps_files input fs :
  exists cur, keeps_files cur fs (snd (edit_file input fs)).
Proof.
  apply (decoding_state (fun fs' => exists cur, keeps_files cur fs fs')).
  - exists []. apply keeps_files_refl.
  - intros v. apply edit_file_parsed_views.
Qed.

Lemma edit_file_kinds input fs q k :
  kind_at fs q = Some k -> kind_at (snd (edit_file input fs)) q = Some k.
Proof.
  destruct (edit_file_keeps_files input fs) as [cur Hcur].
  by apply (keeps_files_kind cur).
Qed.


(** X11.  An input that cannot be decoded is an error of the tool, and the
    files stay as they are: text that is no JSON gives "Invalid JSON input"
    and the message of the decoder, bytes that are no UTF-8 give the
    [UnicodeDecodeError] itself. *)
Theorem tools_report_undecodable_input tool :
  In tool [read_file; list_files; edit_file] ->
  (forall s msg fs, json_loads s = inl msg ->
     tool (PyStr s) fs =
     (Returned ("", Some (Exception ("Invalid JSON input: " +:+ msg))), fs)) /\
  (forall b msg fs, bytes_decode b = inl msg ->
     tool (PyBytes b) fs = (Returned ("", Some (UnicodeDecodeError msg)), fs)) /\
  (forall b s msg fs, bytes_decode b = inr s -> json_loads s = inl msg ->
     tool (PyBytes b) fs =
     (Returned ("", Some (Exception ("Invalid JSON input: " +:+ msg))), fs)).
Proof.
  intros Htool.
  assert (tool = read_file \/ tool = list_files \/ tool = edit_file) as Hcases.
  { simpl in Htool. intuition auto. }
  clear Htool. split; [|split].
  - intros s msg fs Hs.
    destruct Hcases as [-> | [-> | ->]];
      unfold read_file, list_files, edit_file, loads, try_except, bind; by rewrite Hs.
  - intros b msg fs Hb.
    destruct Hcases as [-> | [-> | ->]];
      unfold read_file, list_files, edit_file, decode, try_except, bind; by rewrite Hb.
  - intros b s msg fs Hb Hs.
    destruct Hcases as [-> | [-> | ->]];
      unfold read_file, list_files, edit_file, decode, loads, try_except, bind, ret;
      by rewrite Hb, Hs.
Qed.

(** X12.  JSON that decodes to something else than an object: [list_files]
    and [edit_file] return the [AttributeError] of the missing [get],
    [read_file] returns an error of its own; the files stay as they are. *)
Theorem tools_reject_json_that_is_no_object input v fs :
  decodes_to input v -> (forall d, v <> PyDict d) ->
  list_files input fs =
    (Returned ("", Some (AttributeError
                           ("'" +:+ type_name v +:+ "' object has no attribute 'get'"))), fs) /\
  edit_file input fs =
    (Returned ("", Some (AttributeError
                           ("'" +:+ type_name v +:+ "' object has no attribute 'get'"))), fs) /\
  exists e, read_file input fs = (Returned ("", Some e), fs).
Proof.
  intros Hdec Hv.
  rewrite (list_files_decoded _ _ _ Hdec), (edit_file_decoded _ _ _ Hdec),
    (read_file_decoded _ _ _ Hdec).
  unfold try_except, list_files_parsed, edit_file_parsed, read_file_parsed, bind.
  destruct v as [s | d | b | items | t]; try (by destruct (Hv d)); cbn.
  - split; [done|]. split; [done|]. destruct (occursb "path" s); cbn; eauto.
  - split; [done|]. split; [done|]. eauto.
  - split; [done|]. split; [done|].
    destruct (existsb _ items); cbn; eauto.
  - split; [done|]. split; [done|]. eauto.
Qed.

(** X13.  Fields the input does not have.  Without [path], [read_file]
    returns "No 'path' field in input" and [list_files] lists ["."];
    [edit_file] takes every field it does not find as the empty string. *)
Theorem tools_treat_absent_fields d fs :
  (d !! "path" = None ->
     read_file (PyDict d) fs =
       (Returned ("", Some (Exception "No 'path' field in input")), fs) /\
     list_files (PyDict d) fs = list_files (PyDict (<["path" := "."]> d)) fs) /\
  (forall key, d !! key = None ->
     edit_file (PyDict d) fs = edit_file (PyDict (<[key := ""]> d)) fs).
Proof.
  split.
  - intros Hnone. split.
    + unfold read_file, try_except, read_file_parsed, bind, lacks_path, ret.
      by rewrite Hnone.
    + unfold list_files, try_except, list_files_parsed.
      erewrite run_bind; [|reflexivity]. symmetry.
      erewrite run_bind; [|reflexivity].
      by rewrite lookup_insert_eq, Hnone.
  - intros key Hnone. unfold edit_file, try_except.
    rewrite (edit_file_parsed_fields d (<[key := ""]> d)); [done|..];
      symmetry; by apply field_insert_absent.
Qed.

(** X14.  [list_files] on a path that names nothing returns "Directory not
    found" and the path, on a path that names a file "Path is not a
    directory" and the path; the path is ["."] when the input has none. *)
Theorem list_files_rejects_what_is_no_directory input d fs :
  decodes_to input (PyDict d) ->
  let dir_path := default "." (d !! "path") in
  (forall e, stat fs dir_path = inl e ->
     list_files input fs =
     (Returned ("", Some (Exception ("Directory not found: " +:+ dir_path))), fs)) /\
  (forall content, stat fs dir_path = inr (File content) ->
     list_files input fs =
     (Returned ("", Some (Exception ("Path is not a directory: " +:+ dir_path))), fs)).
Proof.
  intros Hdec dir_path. rewrite (list_files_decoded _ _ _ Hdec). split.
  - intros e Hstat. apply run_try. unfold list_files_parsed.
    erewrite run_bind; [|reflexivity]. fold dir_path.
    erewrite run_bind; [|by eapply os_path_exists_missing]. done.
  - intros content Hstat. apply run_try. unfold list_files_parsed.
    erewrite run_bind; [|reflexivity]. fold dir_path.
    erewrite run_bind; [|by eapply os_path_exists_stat]. cbn [negb].
    erewrite run_bind; [|unfold os_path_isdir; rewrite Hstat; reflexivity]. done.
Qed.




(** X18.  [edit_file] removes nothing: every file and every directory is
    still there after the call, whatever the input and the outcome; no file
    becomes a directory or a directory a file, and at most one file has
    another text than before. *)
Theorem edit_file_removes_nothing input fs :
  exists cur, forall q v, view_at fs q = Some v ->
    view_at (snd (edit_file input fs)) q = Some v \/
    (q = cur /\ exists c c',
        v = VFile c /\ view_at (snd (edit_file input fs)) q = Some (VFile c')).
Proof. apply edit_file_keeps_files. Qed.

End ToolProperties.

(** ** The agent *)

Section AgentProperties.

Variable tools : list ToolDefinition.
Variable run_inference : list message -> exn + list content_block.

Lemma execute_tool_id tool_id tool_name tool_input fs :
  tool_use_id (fst (fst (execute_tool tools tool_id tool_name tool_input fs))) = tool_id.
Proof.
  unfold execute_tool. destruct (find_tool tools tool_name) as [tool_def|]; [|done].
  by destruct (function tool_def tool_input fs) as [[[response [error|]]|e] fs'].
Qed.

(** The loop over the blocks adds one result per [tool_use] block, in the
    order of the blocks, each with the id of its block. *)
Lemma dispatch_blocks_ids blocks tool_results fs out :
  exists added,
    fst (fst (dispatch_blocks tools blocks tool_results fs out)) = tool_results ++ added /\
    map tool_use_id added = map (fun u => fst (fst u)) (tool_uses blocks).
Proof.
  revert tool_results fs out.
  induction blocks as [|block blocks IH]; intros tool_results fs out.
  - exists []. by rewrite app_nil_r.
  - destruct block as [text | id name input | type_ | text]; cbn [dispatch_blocks tool_uses];
      try apply IH.
    pose proof (execute_tool_id id name input fs) as Hid.
    destruct (execute_tool tools id name input fs) as [[result fs'] printed].
    destruct (IH (tool_results ++ [result]) fs' (out ++ printed)) as (added & -> & Hids).
    exists (result :: added). rewrite <- app_assoc. split; [done|].
    cbn [map fst]. f_equal; [done | apply Hids].
Qed.

(** C8.  After a reply of the model with at least one [tool_use] block the
    loop adds, behind the assistant message that holds the reply, one user
    message whose content is one [tool_result] per [tool_use] block, in the
    order of the blocks and with their ids, and goes on without waiting for
    the user; after a reply without [tool_use] block it adds the assistant
    message only and waits for the user. *)
Theorem model_turn_answers_every_tool_use st response_content :
  run_inference (conversation st) = inr response_content ->
  let st' := model_turn tools run_inference st in
  let reply := {| role := "assistant";
                  message_content_of := ModelBlocks response_content |} in
  let uses := tool_uses response_content in
  match uses with
  | [] =>
      conversation st' = conversation st ++ [reply] /\
      waiting_for_user_input st' = true
  | _ :: _ =>
      exists results,
        conversation st' =
          conversation st ++
          [reply; {| role := "user"; message_content_of := ToolResults results |}] /\
        length results = length uses /\
        map tool_use_id results = map (fun u => fst (fst u)) uses /\
        waiting_for_user_input st' = false
  end.
Proof.
  intros Hreply. cbv zeta. unfold model_turn. rewrite Hreply.
  destruct (dispatch_blocks_ids response_content [] (files st) (stdout st))
    as (results & Hres & Hids).
  destruct (dispatch_blocks tools response_content [] (files st) (stdout st))
    as [[tool_results fs'] out].
  cbn [fst app] in Hres. subst tool_results.
  assert (length results = length (tool_uses response_content)) as Hlen.
  { by rewrite <- (length_map tool_use_id), Hids, length_map. }
  destruct (tool_uses response_content) as [|u uses] eqn:Huses.
  - destruct results; [|done]. done.
  - destruct results as [|r results]; [done|]. cbn [length Nat.eqb].
    exists (r :: results). cbn [conversation waiting_for_user_input].
    rewrite <- app_assoc. done.
Qed.

End AgentProperties.

(** ** Runs of the agent *)

Lemma user_texts_app a b : user_texts (a ++ b) = user_texts a ++ user_texts b.
Proof. unfold user_texts. by rewrite flat_map_app. Qed.

Lemma linked_after_app prev a b :
  linked_after prev (a ++ b) =
  linked_after prev a && linked_after (from_option Some prev (last a)) b.
Proof.
  revert prev. induction a as [|m a IH]; intros prev; [done|].
  cbn [app linked_after]. rewrite IH, andb_assoc.
  assert (from_option Some (Some m) (last a) = from_option Some prev (last (m :: a))) as ->;
    [|done].
  destruct a as [|m' a]; [done|]. rewrite last_cons_cons.
  destruct (last (m' :: a)) eqn:E; [done|]. by apply last_None in E.
Qed.

(** A message in its place at the end of a conversation. *)
Lemma linked_snoc conversation m :
  linked conversation = true -> answers (last conversation) m = true ->
  linked (conversation ++ [m]) = true.
Proof.
  unfold linked. intros Hl Ha. rewrite linked_after_app, Hl. cbn [linked_after andb].
  rewrite andb_true_r. by destruct (last conversation).
Qed.

Section AgentRuns.

Variable tools : list ToolDefinition.
Variable infer : list message -> exn + list content_block.

(** The loop over the blocks prints and takes nothing back. *)
Lemma dispatch_blocks_out blocks tool_results fs out :
  exists printed, snd (dispatch_blocks tools blocks tool_results fs out) = out ++ printed.
Proof.
  revert tool_results fs out.
  induction blocks as [|block blocks IH]; intros tool_results fs out; cbn [dispatch_blocks].
  - exists []. by rewrite app_nil_r.
  - destruct block as [text | id name input | type_ | text].
    + destruct (IH tool_results fs (out ++ [PrintClaude text])) as [printed ->].
      eexists. by rewrite <- app_assoc.
    + destruct (execute_tool tools id name input fs) as [[result fs'] printed1].
      destruct (IH (tool_results ++ [result]) fs' (out ++ printed1)) as [printed ->].
      eexists. by rewrite <- app_assoc.
    + apply IH.
    + destruct (IH tool_results fs (out ++ [PrintClaude text])) as [printed ->].
      eexists. by rewrite <- app_assoc.
Qed.

Lemma extends_refl st : extends st st.
Proof. exists [], []. by rewrite !app_nil_r. Qed.

Lemma extends_trans st1 st2 st3 : extends st1 st2 -> extends st2 st3 -> extends st1 st3.
Proof.
  intros (a1 & p1 & Hc1 & Ho1 & Hi1 & Hl1) (a2 & p2 & Hc2 & Ho2 & Hi2 & Hl2).
  exists (a1 ++ a2), (p1 ++ p2). split; [|split; [|split]].
  - by rewrite Hc2, Hc1, app_assoc.
  - by rewrite Ho2, Ho1, app_assoc.
  - by rewrite Hi1, Hi2, user_texts_app, app_assoc.
  - auto.
Qed.

Lemma model_turn_extends st : extends st (model_turn tools infer st).
Proof.
  unfold model_turn. destruct (infer (conversation st)) as [e|blocks].
  - exists [], [PrintApiError e]. cbn. by rewrite !app_nil_r.
  - destruct (dispatch_blocks_ids tools blocks [] (files st) (stdout st))
      as (results & Hres & Hids).
    destruct (dispatch_blocks_out blocks [] (files st) (stdout st)) as [printed Hout].
    destruct (dispatch_blocks tools blocks [] (files st) (stdout st))
      as [[tool_results fs'] out].
    cbn [fst snd app] in Hres, Hout. subst tool_results out.
    set (reply := {| role := "assistant"; message_content_of := ModelBlocks blocks |}).
    assert (forall c, linked c = true -> linked (c ++ [reply]) = true) as Hreply.
    { intros c Hc. by apply linked_snoc. }
    destruct (Nat.eqb (length results) 0) eqn:Hlen.
    + exists [reply], printed. cbn. split; [|split; [|split]]; auto.
    + exists [reply; {| role := "user"; message_content_of := ToolResults results |}], printed.
      cbn [conversation stdout stdin]. rewrite <- app_assoc.
      split; [done|]. split; [done|]. split; [done|].
      intros Hl. change [reply; ?m] with ([reply] ++ [m]). rewrite app_assoc.
      apply linked_snoc; [by apply Hreply|].
      rewrite last_snoc. unfold answers. cbn. rewrite Hlen. cbn.
      by apply bool_decide_eq_true.
Qed.

Lemma run_pass_extends st st' : run_pass tools infer st = Some st' -> extends st st'.
Proof.
  unfold run_pass. destruct (waiting_for_user_input st).
  - destruct (stdin st) as [|line later] eqn:Hin; [done|]. intros [= <-].
    eapply extends_trans; [|apply model_turn_extends].
    exists [{| role := "user"; message_content_of := UserText line |}], [PrintPrompt].
    cbn. split; [done|]. split; [done|]. split; [done|].
    intros Hl. by apply linked_snoc.
  - intros [= <-]. apply model_turn_extends.
Qed.

Lemma run_loop_extends passes st : extends st (run_loop tools infer passes st).
Proof.
  revert st. induction passes as [|n IH]; intros st; cbn [run_loop]; [apply extends_refl|].
  destruct (run_pass tools infer st) as [st'|] eqn:Hpass; [|apply extends_refl].
  eapply extends_trans; [by apply run_pass_extends | apply IH].
Qed.

(** X8.  The agent loop only appends: after any number of passes the
    conversation and the output are the ones before with something behind
    them, and the lines taken from the user are, in their order, the user
    texts of the messages that were added. *)
Theorem run_loop_appends passes st :
  exists added printed,
    conversation (run_loop tools infer passes st) = conversation st ++ added /\
    stdout (run_loop tools infer passes st) = stdout st ++ printed /\
    stdin st = user_texts added ++ stdin (run_loop tools infer passes st).
Proof.
  destruct (run_loop_extends passes st) as (added & printed & H1 & H2 & H3 & _). eauto.
Qed.

(** X9.  Every conversation of [Agent.run] is well linked: a user text or
    a list of tool results has the role ["user"], a reply the role
    ["assistant"], and a list of tool results stands right behind the reply
    whose [tool_use] blocks it answers, one result per block, in the order
    of the blocks and with their ids. *)
Theorem run_keeps_conversation_linked passes fs user_lines :
  linked (conversation (run tools infer passes fs user_lines)) = true.
Proof.
  unfold run.
  destruct (run_loop_extends passes
              {| conversation := []; waiting_for_user_input := true; files := fs;
                 stdin := user_lines; stdout := [PrintWelcome] |})
    as (added & printed & H1 & H2 & H3 & H4).
  by apply H4.
Qed.

Lemma run_loop_failing passes st :
  (forall c, exists e, infer c = inl e) ->
  waiting_for_user_input st = true ->
  conversation (run_loop tools infer passes st)
    = conversation st ++ map user_message (take passes (stdin st)) /\
  stdin (run_loop tools infer passes st) = drop passes (stdin st) /\
  files (run_loop tools infer passes st) = files st /\
  waiting_for_user_input (run_loop tools infer passes st) = true.
Proof.
  intros Hfail. revert st. induction passes as [|n IH]; intros st Hwait.
  - cbn [run_loop]. rewrite take_0, drop_0. cbn [map]. by rewrite app_nil_r.
  - cbn [run_loop]. unfold run_pass. rewrite Hwait.
    destruct (stdin st) as [|line later] eqn:Hin.
    + rewrite Hin. cbn. by rewrite app_nil_r.
    + unfold model_turn. cbn [conversation].
      destruct (Hfail (conversation st ++ [{| role := "user"; message_content_of := UserText line |}]))
        as [e ->].
      cbn [files stdin stdout].
      match goal with |- context [run_loop tools infer n ?s] =>
        destruct (IH s eq_refl) as (H1 & H2 & H3 & H4) end.
      cbn [conversation stdin files] in H1, H2, H3.
      rewrite H1, H2, H3, H4. cbn [firstn skipn map]. rewrite <- app_assoc. done.
Qed.

(** X10.  While every call of the model fails the agent goes on asking
    the user: after [passes] passes the conversation is the lines read so
    far, one user message each and none taken back after its failed call,
    and no file has changed. *)
Theorem run_with_a_failing_model passes fs user_lines :
  (forall c, exists e, infer c = inl e) ->
  conversation (run tools infer passes fs user_lines)
    = map user_message (take passes user_lines) /\
  stdin (run tools infer passes fs user_lines) = drop passes user_lines /\
  files (run tools infer passes fs user_lines) = fs.
Proof.
  intros Hfail. unfold run.
  match goal with |- context [run_loop tools infer passes ?s] =>
    destruct (run_loop_failing passes s Hfail eq_refl) as (H1 & H2 & H3 & _) end.
  done.
Qed.

End AgentRuns.

(** ** The agent and the files *)

Section AgentFiles.

Variable tools : list ToolDefinition.
Variable infer : list message -> exn + list content_block.
Variable P : node -> Prop.

Lemma execute_tool_keeps tool_id tool_name tool_input fs :
  tool_keeps tools P tool_name -> P fs ->
  P (snd (fst (execute_tool tools tool_id tool_name tool_input fs))).
Proof.
  intros Hkeeps Hfs. unfold execute_tool.
  unfold tool_keeps in Hkeeps.
  destruct (find_tool tools tool_name) as [tool_def|] eqn:Hfind; [|done].
  specialize (Hkeeps tool_def eq_refl tool_input fs Hfs).
  by destruct (function tool_def tool_input fs) as [[[response [error|]]|e] fs'].
Qed.

Lemma dispatch_blocks_keeps blocks tool_results fs out :
  Forall (fun u => tool_keeps tools P (snd (fst u))) (tool_uses blocks) -> P fs ->
  P (snd (fst (dispatch_blocks tools blocks tool_results fs out))).
Proof.
  revert tool_results fs out.
  induction blocks as [|block blocks IH]; intros tool_results fs out Hall Hfs; [done|].
  destruct block as [text | id name input | type_ | text]; cbn [dispatch_blocks tool_uses] in *;
    try by apply IH.
  inversion Hall as [|? ? Hname Hrest]; subst. cbn [fst snd] in Hname.
  pose proof (execute_tool_keeps id name input fs Hname Hfs) as Hstep.
  destruct (execute_tool tools id name input fs) as [[result fs'] printed].
  by apply IH.
Qed.

Lemma model_turn_keeps st :
  (forall blocks, infer (conversation st) = inr blocks ->
     Forall (fun u => tool_keeps tools P (snd (fst u))) (tool_uses blocks)) ->
  P (files st) -> P (files (model_turn tools infer st)).
Proof.
  intros Hall Hfs. unfold model_turn.
  destruct (infer (conversation st)) as [e|blocks]; [done|].
  pose proof (dispatch_blocks_keeps blocks [] (files st) (stdout st) (Hall blocks eq_refl) Hfs) as H.
  destruct (dispatch_blocks tools blocks [] (files st) (stdout st)) as [[tool_results fs'] out].
  by destruct (Nat.eqb (length tool_results) 0).
Qed.

Lemma run_loop_keeps passes st :
  (forall tool_name, tool_keeps tools P tool_name) ->
  P (files st) -> P (files (run_loop tools infer passes st)).
Proof.
  intros Hall. revert st. induction passes as [|n IH]; intros st Hfs; [done|].
  cbn [run_loop]. destruct (run_pass tools infer st) as [st'|] eqn:Hpass; [|done].
  apply IH. unfold run_pass in Hpass.
  destruct (waiting_for_user_input st).
  - destruct (stdin st) as [|line later]; [done|]. injection Hpass as <-.
    apply model_turn_keeps; [|done]. intros blocks _. apply Forall_forall. auto.
  - injection Hpass as <-.
    apply model_turn_keeps; [|done]. intros blocks _. apply Forall_forall. auto.
Qed.

End AgentFiles.

(** ** The tools of the agent *)

(** The names the model is told are the names [execute_tool] finds. *)
Lemma find_tool_declared tools tool_name :
  In tool_name (map (fun d => fst (fst d)) (anthropic_tools tools)) <->
  exists tool, find_tool tools tool_name = Some tool.
Proof.
  unfold anthropic_tools, find_tool. rewrite map_map. cbn [fst].
  induction tools as [|t tools IH]; cbn [map In find].
  - split; [done | by intros [? ?]].
  - destruct (String.eqb_spec (name t) tool_name) as [->|Hne].
    + split; eauto.
    + rewrite <- IH. split; [by intros [?|?] | auto].
Qed.

Lemma find_tool_name tools tool_name tool :
  find_tool tools tool_name = Some tool -> In tool tools /\ name tool = tool_name.
Proof.
  unfold find_tool. intros [Hin Heq]%find_some. split; [done|]. by apply String.eqb_eq.
Qed.

(** X7.  The tools the model is told of are the tools the agent runs.
    For a name in the list [run_inference] sends, [execute_tool] runs a
    tool of the agent with that name and answers with the id of the
    request; for any other name it runs nothing, prints nothing and
    answers "tool not found" as an error. *)
Theorem declared_tools_are_the_tools_run tools tool_id tool_name tool_input fs :
  (In tool_name (map (fun d => fst (fst d)) (anthropic_tools tools)) ->
   exists tool,
     In tool tools /\ name tool = tool_name /\
     tool_use_id (fst (fst (execute_tool tools tool_id tool_name tool_input fs))) = tool_id /\
     snd (fst (execute_tool tools tool_id tool_name tool_input fs))
       = snd (function tool tool_input fs)) /\
  (~ In tool_name (map (fun d => fst (fst d)) (anthropic_tools tools)) ->
   execute_tool tools tool_id tool_name tool_input fs =
   ({| tool_use_id := tool_id; content := "tool not found"; is_error := true |}, fs, [])).
Proof.
  split.
  - intros [tool Hfind]%find_tool_declared. exists tool.
    destruct (find_tool_name _ _ _ Hfind) as [Hin Hname].
    split; [done|]. split; [done|]. split; [apply execute_tool_id|].
    unfold execute_tool. rewrite Hfind.
    by destruct (function tool tool_input fs) as [[[response [error|]]|e] fs'].
  - intros Hnot. unfold execute_tool.
    destruct (find_tool tools tool_name) as [tool|] eqn:Hfind; [|done].
    destruct Hnot. apply find_tool_declared. eauto.
Qed.

(** ** [main] *)

Lemma probe_some client models model printed :
  probe client models = (Some model, printed) <->
  exists before later,
    models = before ++ model :: later /\
    Forall (fails client) before /\
    (exists reply, client (test_request model) = inr reply) /\
    printed = failure_lines client before ++ [PrintWorks model].
Proof.
  revert printed. induction models as [|m models IH]; intros printed; cbn [probe].
  - split; [done|]. intros (before & later & H & _). by destruct before.
  - destruct (client (test_request m)) as [e|reply] eqn:Hm.
    + destruct (probe client models) as [w out] eqn:Hp. split.
      * intros [= -> <-]. destruct (proj1 (IH out) eq_refl) as (before & later & -> & Hf & Hw & ->).
        exists (m :: before), later. split; [done|]. split; [constructor; [by exists e | done]|].
        split; [done|]. cbn [failure_lines flat_map]. by rewrite Hm.
      * intros (before & later & Heq & Hf & Hw & ->).
        destruct before as [|b before]; cbn [app] in Heq; injection Heq as <- ->.
        { destruct Hw as [reply Hw]. congruence. }
        inversion Hf as [|? ? _ Hf']; subst.
        assert ((w, out) = (Some model, failure_lines client before ++ [PrintWorks model])) as E.
        { apply IH. eauto 10. }
        injection E as -> ->. cbn [failure_lines flat_map]. by rewrite Hm.
    + split.
      * intros [= <- <-]. exists [], models. split; [done|]. split; [constructor|]. eauto.
      * intros (before & later & Heq & Hf & Hw & ->).
        destruct before as [|b before]; cbn [app] in Heq; injection Heq as <- ->; [done|].
        inversion Hf as [|? ? [e He] _]; subst. congruence.
Qed.

Lemma probe_none client models printed :
  probe client models = (None, printed) <->
  Forall (fails client) models /\ printed = failure_lines client models.
Proof.
  revert printed. induction models as [|m models IH]; intros printed; cbn [probe].
  - split; [by intros [= <-] | by intros [_ ->]].
  - destruct (client (test_request m)) as [e|reply] eqn:Hm.
    + destruct (probe client models) as [w out] eqn:Hp. split.
      * intros [= -> <-]. destruct (proj1 (IH out) eq_refl) as [Hf ->].
        split; [constructor; [by exists e | done]|]. cbn [failure_lines flat_map]. by rewrite Hm.
      * intros [Hf ->]. inversion Hf as [|? ? _ Hf']; subst.
        assert ((w, out) = (None, failure_lines client models)) as E by (by apply IH).
        injection E as -> ->. cbn [failure_lines flat_map]. by rewrite Hm.
    + split; [done|]. intros [Hf _]. inversion Hf as [|? ? [e He] _]; subst. congruence.
Qed.

Section FileAgent.

Variable json_loads : string -> string + pyobj.
Variable bytes_decode : list Byte.byte -> string + string.
Variable infer : list message -> exn + list content_block.

#[local] Abbreviation the_tools := (file_tools json_loads bytes_decode).

(** The three tools [main] gives the agent, by name. *)
Lemma file_tools_find tool_name tool :
  find_tool the_tools tool_name = Some tool ->
  (tool_name = "read_file" /\ tool = ReadFileDefinition json_loads bytes_decode) \/
  (tool_name = "list_files" /\ tool = ListFilesDefinition json_loads bytes_decode) \/
  (tool_name = "edit_file" /\ tool = EditFileDefinition json_loads bytes_decode).
Proof.
  unfold find_tool, file_tools. cbn [find name ReadFileDefinition ListFilesDefinition EditFileDefinition].
  destruct (String.eqb_spec "read_file" tool_name) as [<-|_]; [intros [= <-]; auto|].
  destruct (String.eqb_spec "list_files" tool_name) as [<-|_]; [intros [= <-]; auto|].
  destruct (String.eqb_spec "edit_file" tool_name) as [<-|_]; [intros [= <-]; auto|].
  done.
Qed.

Lemma file_tools_keep_wf tool_name :
  tool_keeps the_tools (fun fs => wf_tree fs = true) tool_name.
Proof.
  intros tool Hfind input fs Hfs.
  destruct (file_tools_find _ _ Hfind) as [[_ ->] | [[_ ->] | [_ ->]]];
    cbn [function ReadFileDefinition ListFilesDefinition EditFileDefinition].
  - by rewrite read_file_pure.
  - by rewrite list_files_pure.
  - by apply edit_file_wf.
Qed.

(** X19.  The agent of [main] keeps a well-formed file tree well-formed,
    whatever the model asks for and however long it runs. *)
Theorem agent_keeps_tree_well_formed passes fs user_lines :
  wf_tree fs = true ->
  wf_tree (files (run the_tools infer passes fs user_lines)) = true.
Proof.
  intros Hfs. unfold run.
  apply (run_loop_keeps the_tools infer (fun fs => wf_tree fs = true)); [|done].
  apply file_tools_keep_wf.
Qed.

(** X20.  The agent of [main] changes the files through [edit_file] only:
    a reply of the model without a [tool_use] block for [edit_file] leaves
    every file as it is. *)
Theorem agent_changes_files_by_edit_file_only st blocks :
  infer (conversation st) = inr blocks ->
  Forall (fun u => snd (fst u) <> "edit_file") (tool_uses blocks) ->
  files (model_turn the_tools infer st) = files st.
Proof.
  intros Hreply Hnames.
  apply (model_turn_keeps the_tools infer (fun fs => fs = files st)); [|done].
  intros blocks' Hblocks. rewrite Hreply in Hblocks. injection Hblocks as <-.
  eapply Forall_impl; [exact Hnames|]. intros [[id tool_name] input] Hne. cbn [fst snd] in *.
  intros tool Hfind input' fs ->.
  destruct (file_tools_find _ _ Hfind) as [[_ ->] | [[_ ->] | [-> _]]];
    cbn [function ReadFileDefinition ListFilesDefinition EditFileDefinition].
  - apply read_file_pure.
  - apply list_files_pure.
  - done.
Qed.

(** X21.  The agent of [main] removes nothing: whatever the model asks
    for, a file is still a file and a directory still a directory at the
    end of the run. *)
Theorem agent_removes_nothing passes fs user_lines q k :
  kind_at fs q = Some k ->
  kind_at (files (run the_tools infer passes fs user_lines)) q = Some k.
Proof.
  intros Hq. unfold run.
  apply (run_loop_keeps the_tools infer (fun fs' => kind_at fs' q = Some k)); [|done].
  intros tool_name tool Hfind input fs1 Hfs1.
  destruct (file_tools_find _ _ Hfind) as [[_ ->] | [[_ ->] | [_ ->]]];
    cbn [function ReadFileDefinition ListFilesDefinition EditFileDefinition].
  - by rewrite read_file_pure.
  - by rewrite list_files_pure.
  - by apply edit_file_kinds.
Qed.

(** X22.  [main] starts the agent with the first model of its list that
    the client answers for, after one line for every model that failed
    before it, and with the three file tools; without an API key, or when
    no model answers, it prints why and starts no agent. *)
Theorem main_runs_the_first_working_model passes api_key client fs user_lines :
  match snd (main json_loads bytes_decode passes api_key client fs user_lines) with
  | Some st =>
      exists c key before model later,
        api_key = Some (String c key) /\
        test_models = before ++ model :: later /\
        Forall (fails client) before /\
        (exists reply, client (test_request model) = inr reply) /\
        fst (main json_loads bytes_decode passes api_key client fs user_lines)
          = PrintTesting :: failure_lines client before ++ [PrintWorks model] /\
        st = run the_tools (run_inference client model the_tools) passes fs user_lines
  | None =>
      ((api_key = None \/ api_key = Some "") /\
       fst (main json_loads bytes_decode passes api_key client fs user_lines)
         = [PrintNoApiKey]) \/
      (Forall (fails client) test_models /\
       fst (main json_loads bytes_decode passes api_key client fs user_lines)
         = PrintTesting :: failure_lines client test_models ++ [PrintNoWorkingModel])
  end.
Proof.
  unfold main. destruct api_key as [[|c key]|]; [by left; auto | | by left; auto].
  destruct (probe client test_models) as [[model|] printed] eqn:Hprobe; cbn [fst snd].
  - apply probe_some in Hprobe as (before & later & Heq & Hf & Hw & ->).
    exists c, key, before, model, later. done.
  - apply probe_none in Hprobe as [Hf ->]. right. done.
Qed.

End FileAgent.

(** * The theorems at sample inputs *)


Lemma edit_file_rejects_invalid_input_witness :
  edit_file sample_loads sample_decode (sample_edit "a.txt" "same" "same") sample_tree
    = (Returned ("", Some (Exception "Invalid input parameters")), sample_tree) /\
  edit_file sample_loads sample_decode (sample_edit "" "hello" "world") sample_tree
    = (Returned ("", Some (Exception "Invalid input parameters")), sample_tree).
Proof.
  split.
  - apply (edit_file_rejects_invalid_input sample_loads sample_decode _
             (sample_fields "a.txt" "same" "same")); [constructor|].
    right. vm_compute. reflexivity.
  - apply (edit_file_rejects_invalid_input sample_loads sample_decode _
             (sample_fields "" "hello" "world")); [constructor|].
    left. vm_compute. reflexivity.
Defined.



Lemma read_file_directory_witness :
  read_file sample_loads sample_decode (PyDict {[ "path" := "sub" ]}) sample_tree
    = (Returned ("", Some (OSError EISDIR "sub")), sample_tree).
Proof.
  apply (read_file_directory sample_loads sample_decode _ {[ "path" := "sub" ]}
           sample_tree "sub" [("x", File "X")]).
  - constructor.
  - vm_compute. reflexivity.
  - vm_compute. reflexivity.
Defined.

Lemma tools_accept_three_representations_witness :
  read_file sample_loads sample_decode (PyStr sample_text) sample_tree
    = read_file sample_loads sample_decode (PyDict {[ "path" := "notes.txt" ]}) sample_tree /\
  read_file sample_loads sample_decode
      (PyBytes (String.list_byte_of_string sample_text)) sample_tree
    = read_file sample_loads sample_decode (PyStr sample_text) sample_tree /\
  read_file sample_loads sample_decode (PyOther "int") sample_tree
    = (Returned ("", Some (Exception "Unknown input format: <class 'int'>")), sample_tree).
Proof.
  destruct (tools_accept_three_representations sample_loads sample_decode
              (read_file sample_loads sample_decode)) as (Hstr & Hbytes & Hother).
  - left. reflexivity.
  - split; [|split].
    + apply Hstr. vm_compute. reflexivity.
    + apply Hbytes. vm_compute. reflexivity.
    + apply (Hother (PyOther "int")); intros; discriminate.
Defined.

Lemma model_turn_answers_every_tool_use_witness :
  exists results,
    conversation (model_turn sample_tools sample_inference sample_state) =
      conversation sample_state ++
      [{| role := "assistant"; message_content_of := ModelBlocks sample_reply |};
       {| role := "user"; message_content_of := ToolResults results |}] /\
    length results = 2 /\
    map tool_use_id results = ["toolu_1"; "toolu_2"] /\
    waiting_for_user_input (model_turn sample_tools sample_inference sample_state) = false.
Proof.
  exact (model_turn_answers_every_tool_use sample_tools sample_inference
           sample_state sample_reply eq_refl).
Defined.



(** ** Where a claim fails *)



(** C1.  A creation that fails: the parent of the new file is a file.
    [edit_file] returns the failure as its result text, with no error. *)
Lemma edit_file_reports_failed_creation_as_result :
  stat sample_tree "a.txt/new.txt" = inl ENOTDIR /\
  edit_file sample_loads sample_decode (sample_edit "a.txt/new.txt" "" "x") sample_tree
    = (Returned ("Failed to create file: [Errno 17] File exists: 'a.txt'", None),
       sample_tree).
Proof. split; vm_compute; reflexivity. Qed.

(** The spec's example of a creation followed by an edit. *)
Example edit_file_create_then_edit :
  let created := Dir [("fresh.txt", File "hello")] in
  let edited := Dir [("fresh.txt", File "world")] in
  edit_file sample_loads sample_decode (sample_edit "fresh.txt" "" "hello") (Dir [])
    = (Returned ("Successfully created file fresh.txt", None), created) /\
  edit_file sample_loads sample_decode (sample_edit "fresh.txt" "hello" "world") created
    = (Returned ("OK", None), edited).
Proof. split; vm_compute; reflexivity. Qed.

Example str_replace_examples :
  str_replace "ab" "X" "cabxabab" = "cXxXX" /\
  str_replace "aa" "b" "aaa" = "ba" /\
  str_replace "" "-" "abc" = "-a-b-c-" /\
  str_replace "" "X" "" = "X".
Proof. repeat split. Qed.


Lemma tools_keep_tree_well_formed_witness :
  wf_tree
    (snd (edit_file sample_loads sample_decode
            (sample_edit "docs/new/hello.txt" "" "hello") sample_tree)) = true.
Proof.
  apply (tools_keep_tree_well_formed sample_loads sample_decode
           (sample_edit "docs/new/hello.txt" "" "hello") sample_tree).
  vm_compute. reflexivity.
Defined.

(** ** The further properties at sample inputs *)

Lemma run_with_a_failing_model_witness :
  conversation (run sample_tools sample_failing_inference 5 sample_tree ["hello"; "again"])
    = [user_message "hello"; user_message "again"] /\
  files (run sample_tools sample_failing_inference 5 sample_tree ["hello"; "again"])
    = sample_tree.
Proof.
  destruct (run_with_a_failing_model sample_tools sample_failing_inference 5 sample_tree
              ["hello"; "again"]) as (H1 & _ & H3).
  - intros c. exists (Exception "overloaded"). reflexivity.
  - split; [exact H1 | exact H3].
Defined.

Lemma tools_report_undecodable_input_witness :
  edit_file sample_loads sample_decode (PyStr "path=a.txt") sample_tree =
  (Returned ("", Some (Exception
                         "Invalid JSON input: Expecting value: line 1 column 1 (char 0)")),
   sample_tree).
Proof.
  destruct (tools_report_undecodable_input sample_loads sample_decode
              (edit_file sample_loads sample_decode)) as [H _].
  - right. right. left. reflexivity.
  - apply (H "path=a.txt" "Expecting value: line 1 column 1 (char 0)" sample_tree).
    vm_compute. reflexivity.
Defined.

Lemma tools_reject_json_that_is_no_object_witness :
  edit_file sample_loads_array sample_decode (PyStr "[]") sample_tree =
  (Returned ("", Some (AttributeError "'list' object has no attribute 'get'")), sample_tree).
Proof.
  destruct (tools_reject_json_that_is_no_object sample_loads_array sample_decode
              (PyStr "[]") (PyList []) sample_tree) as (_ & H & _).
  - constructor. reflexivity.
  - intros d. discriminate.
  - exact H.
Defined.

Lemma list_files_rejects_what_is_no_directory_witness :
  list_files sample_loads sample_decode (PyDict {[ "path" := "a.txt" ]}) sample_tree =
    (Returned ("", Some (Exception "Path is not a directory: a.txt")), sample_tree) /\
  list_files sample_loads sample_decode (PyDict {[ "path" := "missing" ]}) sample_tree =
    (Returned ("", Some (Exception "Directory not found: missing")), sample_tree).
Proof.
  split.
  - destruct (list_files_rejects_what_is_no_directory sample_loads sample_decode
                (PyDict {[ "path" := "a.txt" ]}) {[ "path" := "a.txt" ]} sample_tree)
      as [_ H]; [constructor|].
    apply (H "hello"). vm_compute. reflexivity.
  - destruct (list_files_rejects_what_is_no_directory sample_loads sample_decode
                (PyDict {[ "path" := "missing" ]}) {[ "path" := "missing" ]} sample_tree)
      as [H _]; [constructor|].
    apply (H ENOENT). vm_compute. reflexivity.
Defined.




Lemma agent_keeps_tree_well_formed_witness :
  wf_tree (files (run (file_tools sample_loads sample_decode) sample_inference 3
                    sample_tree ["show a.txt"])) = true.
Proof. apply agent_keeps_tree_well_formed. vm_compute. reflexivity. Defined.

Lemma agent_changes_files_by_edit_file_only_witness :
  files (model_turn (file_tools sample_loads sample_decode) sample_inference sample_state)
    = sample_tree.
Proof.
  apply (agent_changes_files_by_edit_file_only sample_loads sample_decode sample_inference
           sample_state sample_reply).
  - reflexivity.
  - cbn [tool_uses sample_reply]. constructor; [discriminate|].
    constructor; [discriminate|]. constructor.
Defined.

Lemma agent_removes_nothing_witness :
  kind_at (files (run (file_tools sample_loads sample_decode) sample_inference 3
                    sample_tree ["show a.txt"])) ["sub"; "x"] = Some false.
Proof. apply agent_removes_nothing. vm_compute. reflexivity. Defined.

(** [main] with a client that answers for the third model only. *)
Example main_example :
  fst (main sample_loads sample_decode 0 (Some "key") sample_client sample_tree []) =
  [PrintTesting;
   PrintFails "claude-3-5-sonnet-20250106" (Exception "model not found");
   PrintFails "claude-3-5-sonnet-20241022" (Exception "model not found");
   PrintWorks "claude-3-5-haiku-20241022"] /\
  fst (main sample_loads sample_decode 0 None sample_client sample_tree []) = [PrintNoApiKey].
Proof. split; vm_compute; reflexivity. Qed.
